(** * FabioBot skills: OAuth token cache and authenticated requests

    A shallow embedding of the JavaScript skill modules
    [skills/email-manager], [skills/fabric-api] and
    [skills/powerbi-report-builder].

    Modelling conventions:
    - JavaScript values are the inductive type [JSValue]; numbers are
      unbounded integers plus [NaN] (timestamps in milliseconds, HTTP status
      codes, counts and lifetimes in seconds are integers; fractions and the
      rounding of doubles are outside the model);
    - strings are sequences of 8-bit code units; case mapping and the
      whitespace class are those of ASCII;
    - an [async] function is a state-and-exception computation [M] over the
      module-level [tokenCache] and the list of requests handed to [fetch];
      every reading of [Date.now()] is an explicit argument;
    - the platform ([process.env], [fetch], [JSON], [URLSearchParams],
      [encodeURIComponent], numeric parsing of strings) is a record [Host]
      that every function takes as its first argument. *)

From Stdlib Require Import ZArith String Ascii List Bool Lia DecimalString.
Import ListNotations.
Open Scope string_scope.
Open Scope Z_scope.
Set Warnings "-register-all".

(** ** JavaScript values and coercions *)

Inductive Number : Type :=
| Int (z : Z)
| NaN.

Inductive JSValue : Type :=
| JUndefined
| JNull
| JBool (b : bool)
| JNum (n : Number)
| JStr (s : string)
| JArr (items : list JSValue)
| JObj (fields : list (string * JSValue)).

Definition Number_toString (n : Number) : string :=
  match n with
  | Int z => NilZero.string_of_int (Z.to_int z)
  | NaN => "NaN"
  end.

Definition Number_add (a b : Number) : Number :=
  match a, b with
  | Int x, Int y => Int (x + y)
  | _, _ => NaN
  end.

Definition Number_mul (a b : Number) : Number :=
  match a, b with
  | Int x, Int y => Int (x * y)
  | _, _ => NaN
  end.

(** [a > b]: false as soon as one side is [NaN]. *)
Definition Number_gt (a b : Number) : bool :=
  match a, b with
  | Int x, Int y => y <? x
  | _, _ => false
  end.

Definition Math_min (a b : Number) : Number :=
  match a, b with
  | Int x, Int y => Int (Z.min x y)
  | _, _ => NaN
  end.

(** ToBoolean. *)
Definition truthy (v : JSValue) : bool :=
  match v with
  | JUndefined | JNull => false
  | JBool b => b
  | JNum (Int z) => negb (z =? 0)
  | JNum NaN => false
  | JStr s => negb (String.eqb s "")
  | JArr _ | JObj _ => true
  end.

(** [a || b] *)
Definition JS_or (a b : JSValue) : JSValue := if truthy a then a else b.

(** ToString, as a template literal applies it. *)
Fixpoint ToString (v : JSValue) : string :=
  match v with
  | JUndefined => "undefined"
  | JNull => "null"
  | JBool true => "true"
  | JBool false => "false"
  | JNum n => Number_toString n
  | JStr s => s
  | JArr items =>
      (fix join (l : list JSValue) : string :=
         match l with
         | [] => ""
         | x :: rest =>
             let e := match x with
                      | JUndefined | JNull => ""
                      | _ => ToString x
                      end in
             match rest with
             | [] => e
             | _ :: _ => e ++ "," ++ join rest
             end
         end) items
  | JObj _ => "[object Object]"
  end.

(** ** The platform *)

Record Request : Type := {
  url : string;
  method : string;
  headers : list (string * string);
  body : option string
}.

Record Response : Type := {
  status : Z;
  statusText : string;
  text : string
}.

(** [response.ok] *)
Definition ok (r : Response) : bool := (200 <=? status r) && (status r <=? 299).

Inductive Exn : Type :=
| Error (message : string)
| TypeError
| SyntaxError.

Inductive FetchOutcome : Type :=
| Responded (r : Response)
| Rejected (e : Exn).

Record Host : Type := {
  (** [process.env]: a variable is a string or absent *)
  process_env : string -> option string;
  (** what [fetch] settles with, given the requests made so far *)
  network : list Request -> Request -> FetchOutcome;
  (** [JSON.parse]; [None] is a [SyntaxError] *)
  JSON_parse : string -> option JSValue;
  (** [JSON.stringify(v, null, space)] *)
  JSON_stringify : JSValue -> nat -> string;
  (** [new URLSearchParams(record).toString()] *)
  URLSearchParams_toString : list (string * string) -> string;
  encodeURIComponent : string -> string;
  (** ToNumber on a string *)
  StringToNumber : string -> Number
}.

Definition env (H : Host) (name : string) : JSValue :=
  match process_env H name with
  | Some s => JStr s
  | None => JUndefined
  end.

Definition ToNumber (H : Host) (v : JSValue) : Number :=
  match v with
  | JUndefined => NaN
  | JNull => Int 0
  | JBool true => Int 1
  | JBool false => Int 0
  | JNum n => n
  | JStr s => StringToNumber H s
  | JArr _ | JObj _ => StringToNumber H (ToString v)
  end.

(** ** Module state and the computation monad *)

Record TokenCache : Type := {
  token : JSValue;
  expiresAt : Number
}.

(** [let tokenCache = { token: null, expiresAt: 0 };] *)
Definition initialCache : TokenCache := {| token := JNull; expiresAt := Int 0 |}.

Record State : Type := {
  tokenCache : TokenCache;
  sent : list Request
}.

Inductive Completion (A : Type) : Type :=
| Return (a : A)
| Throw (e : Exn).
Arguments Return {A} a.
Arguments Throw {A} e.

Definition M (A : Type) : Type := State -> Completion A * State.

Definition ret {A} (a : A) : M A := fun st => (Return a, st).
Definition throw {A} (e : Exn) : M A := fun st => (Throw e, st).
Definition bind {A B} (m : M A) (k : A -> M B) : M B :=
  fun st =>
    match m st with
    | (Return a, st') => k a st'
    | (Throw e, st') => (Throw e, st')
    end.

Notation "x <- m ;; k" := (bind m (fun x => k))
  (at level 61, m at next level, right associativity).
Notation "m ;;; k" := (bind m (fun _ => k))
  (at level 61, right associativity).

Definition read_tokenCache : M TokenCache := fun st => (Return (tokenCache st), st).
Definition write_tokenCache (c : TokenCache) : M unit :=
  fun st => (Return tt, {| tokenCache := c; sent := sent st |}).

(** [await fetch(url, options)]: the request is recorded, then the network
    answers or the promise rejects. *)
Definition fetch (H : Host) (req : Request) : M Response :=
  fun st =>
    let st' := {| tokenCache := tokenCache st; sent := (sent st ++ [req])%list |} in
    match network H (sent st) req with
    | Responded r => (Return r, st')
    | Rejected e => (Throw e, st')
    end.

(** [.catch(() => {})]: whatever the promise rejects with is dropped. *)
Definition catch_ignore {A} (m : M A) : M unit :=
  fun st =>
    match m st with
    | (_, st') => (Return tt, st')
    end.

(** [JSON.parse(s)] *)
Definition parse (H : Host) (s : string) : M JSValue :=
  match JSON_parse H s with
  | Some v => ret v
  | None => throw SyntaxError
  end.

Fixpoint lookup (fields : list (string * JSValue)) (name : string) : JSValue :=
  match fields with
  | [] => JUndefined
  | (k, v) :: rest => if String.eqb k name then v else lookup rest name
  end.

(** The value of the property [name] of a non-nullish [v], for the property
    names the skills read: the field of an object, [undefined] on anything
    else. *)
Definition prop (v : JSValue) (name : string) : JSValue :=
  match v with
  | JObj fields => lookup fields name
  | _ => JUndefined
  end.

(** [v.name]: a [TypeError] on [null] and [undefined]. *)
Definition get (v : JSValue) (name : string) : M JSValue :=
  match v with
  | JUndefined | JNull => throw TypeError
  | _ => ret (prop v name)
  end.

(** [v?.name] *)
Definition get_opt (v : JSValue) (name : string) : M JSValue :=
  match v with
  | JUndefined | JNull => ret JUndefined
  | _ => get v name
  end.

(** ** String helpers for the regular expressions of [stripHtml] *)

Definition is_space (c : ascii) : bool :=
  let n := N_of_ascii c in
  ((9 <=? n) && (n <=? 13))%N || (n =? 32)%N.

Definition lower (c : ascii) : ascii :=
  let n := N_of_ascii c in
  if ((65 <=? n) && (n <=? 90))%N then ascii_of_N (n + 32) else c.

Definition upper (c : ascii) : ascii :=
  let n := N_of_ascii c in
  if ((97 <=? n) && (n <=? 122))%N then ascii_of_N (n - 32) else c.

(** [s.toUpperCase()] *)
Fixpoint toUpperCase (s : string) : string :=
  match s with
  | EmptyString => EmptyString
  | String c s' => String (upper c) (toUpperCase s')
  end.

(** [p] is lower case: what follows [p] at the head of [s], letter case
    ignored. *)
Fixpoint strip_prefix_ci (p s : string) : option string :=
  match p, s with
  | EmptyString, _ => Some s
  | String a p', String b s' =>
      if Ascii.eqb a (lower b) then strip_prefix_ci p' s' else None
  | String _ _, EmptyString => None
  end.

(** What follows the first [c] of [s]. *)
Fixpoint after_char (c : ascii) (s : string) : option string :=
  match s with
  | EmptyString => None
  | String a s' => if Ascii.eqb a c then Some s' else after_char c s'
  end.

(** What follows the first occurrence of [p] in [s], letter case ignored. *)
Fixpoint after_first_ci (p s : string) : option string :=
  match strip_prefix_ci p s with
  | Some r => Some r
  | None =>
      match s with
      | EmptyString => None
      | String _ s' => after_first_ci p s'
      end
  end.

(** A match of [/<style[^>]*>[\s\S]*?<\/style>/i] at the head of [s]: what
    follows it. *)
Definition style_match (s : string) : option string :=
  match strip_prefix_ci "<style" s with
  | None => None
  | Some r1 =>
      match after_char ">" r1 with
      | None => None
      | Some r2 => after_first_ci "</style>" r2
      end
  end.

(** A match of [/<[^>]+>/] at the head of [s]: what follows it. *)
Definition tag_match (s : string) : option string :=
  match s with
  | String "<" (String c r) =>
      if Ascii.eqb c ">" then None
      else after_char ">" (String c r)
  | _ => None
  end.

(** [s.replace(re, by)] for a global [re] given by its matcher at the head;
    [skip] characters of the current match are still to be dropped. *)
Fixpoint replace_all (matcher : string -> option string) (by_ : string)
    (skip : nat) (s : string) : string :=
  match s with
  | EmptyString => EmptyString
  | String c s' =>
      match skip with
      | S k => replace_all matcher by_ k s'
      | O =>
          match matcher s with
          | Some rest =>
              by_ ++ replace_all matcher by_
                       (String.length s - String.length rest - 1) s'
          | None => String c (replace_all matcher by_ O s')
          end
      end
  end.

(** [s.replace(/\s+/g, " ")] *)
Fixpoint collapse_spaces (in_run : bool) (s : string) : string :=
  match s with
  | EmptyString => EmptyString
  | String c s' =>
      if is_space c then
        if in_run then collapse_spaces true s'
        else String " " (collapse_spaces true s')
      else String c (collapse_spaces false s')
  end.

Fixpoint trim_start (s : string) : string :=
  match s with
  | EmptyString => EmptyString
  | String c s' => if is_space c then trim_start s' else s
  end.

Fixpoint trim_end (s : string) : string :=
  match s with
  | EmptyString => EmptyString
  | String c s' =>
      match trim_end s' with
      | EmptyString => if is_space c then EmptyString else String c EmptyString
      | r => String c r
      end
  end.

(** [s.trim()] *)
Definition trim (s : string) : string := trim_end (trim_start s).

Definition dquote : string := String (ascii_of_nat 34) EmptyString.

Fixpoint mapM {A B} (f : A -> M B) (l : list A) : M (list B) :=
  match l with
  | [] => ret []
  | x :: rest =>
      y <- f x ;;
      ys <- mapM f rest ;;
      ret (y :: ys)
  end.

(** [(v || []).map(f)] *)
Definition map_array (f : JSValue -> M JSValue) (v : JSValue) : M JSValue :=
  match JS_or v (JArr []) with
  | JArr items => ys <- mapM f items ;; ret (JArr ys)
  | _ => throw TypeError
  end.

(** ** String helpers for [parseRecipients] and [send_email] *)

(** [s.split(",")] *)
Fixpoint split_comma (s : string) : list string :=
  match s with
  | EmptyString => [EmptyString]
  | String c s' =>
      if Ascii.eqb c "," then EmptyString :: split_comma s'
      else
        match split_comma s' with
        | h :: t => String c h :: t
        | [] => [String c EmptyString]
        end
  end.

(** [c] occurs in [s]. *)
Fixpoint has_char (c : ascii) (s : string) : bool :=
  match s with
  | EmptyString => false
  | String a s' => Ascii.eqb a c || has_char c s'
  end.

(** [v.map(f)], without the [|| []] guard: a [TypeError] unless [v] is an
    array. *)
Definition map_strict (f : JSValue -> M JSValue) (v : JSValue) : M JSValue :=
  match v with
  | JArr items => ys <- mapM f items ;; ret (JArr ys)
  | _ => throw TypeError
  end.

(** ** String helpers for the news tracker *)

Fixpoint lower_string (s : string) : string :=
  match s with
  | EmptyString => EmptyString
  | String c s' => String (lower c) (lower_string s')
  end.

(** What follows [p] at the head of [s]. *)
Fixpoint strip_prefix (p s : string) : option string :=
  match p, s with
  | EmptyString, _ => Some s
  | String a p', String b s' =>
      if Ascii.eqb a b then strip_prefix p' s' else None
  | String _ _, EmptyString => None
  end.

(** What stands before the first occurrence of [p] in [s], and what follows
    it. *)
Fixpoint split_first (p s : string) : option (string * string) :=
  match strip_prefix p s with
  | Some r => Some (EmptyString, r)
  | None =>
      match s with
      | EmptyString => None
      | String c s' =>
          match split_first p s' with
          | Some (before, r) => Some (String c before, r)
          | None => None
          end
      end
  end.

(** The same with letter case ignored; [p] is lower case. *)
Fixpoint split_first_ci (p s : string) : option (string * string) :=
  match strip_prefix_ci p s with
  | Some r => Some (EmptyString, r)
  | None =>
      match s with
      | EmptyString => None
      | String c s' =>
          match split_first_ci p s' with
          | Some (before, r) => Some (String c before, r)
          | None => None
          end
      end
  end.

(** A match of [/<tag[^>]*>([\s\S]*?)<\/tag>/i] at the head of [s], for a
    [tag] made of letters: the captured group and what follows the match. *)
Definition element_match (tag s : string) : option (string * string) :=
  match strip_prefix_ci (lower_string ("<" ++ tag)) s with
  | None => None
  | Some r1 =>
      match after_char ">" r1 with
      | None => None
      | Some r2 => split_first_ci (lower_string ("</" ++ tag ++ ">")) r2
      end
  end.

(** [s.replace(re, "$1")] for a global [re] given by its matcher at the
    head, which yields the captured group and what follows the match. *)
Fixpoint replace_by_group (matcher : string -> option (string * string))
    (skip : nat) (s : string) : string :=
  match s with
  | EmptyString => EmptyString
  | String c s' =>
      match skip with
      | S k => replace_by_group matcher k s'
      | O =>
          match matcher s with
          | Some (group, rest) =>
              group ++ replace_by_group matcher
                         (String.length s - String.length rest - 1) s'
          | None => String c (replace_by_group matcher O s')
          end
      end
  end.

(** ** skills/email-manager *)

Module EmailManager.

(** [const EMAIL_USER = process.env.EMAIL_USER || "fabio@sebit.cz";] *)
Definition EMAIL_USER (H : Host) : JSValue :=
  JS_or (env H "EMAIL_USER") (JStr "fabio@sebit.cz").

(** The token-exchange request of [getGraphToken]. *)
Definition tokenRequest (H : Host) : Request :=
  {| url := "https://login.microsoftonline.com/"
            ++ ToString (env H "AZURE_TENANT_ID") ++ "/oauth2/v2.0/token";
     method := "POST";
     headers := [("Content-Type", "application/x-www-form-urlencoded")];
     body := Some (URLSearchParams_toString H
               [("grant_type", "client_credentials");
                ("client_id", ToString (env H "AZURE_CLIENT_ID"));
                ("client_secret", ToString (env H "AZURE_CLIENT_SECRET"));
                ("scope", "https://graph.microsoft.com/.default")]) |}.

(** [getGraphToken] from the point where [await fetch(...)] has settled
    with [response]; [now] is the reading taken when the call began. *)
Definition receiveToken (H : Host) (now : Z) (response : Response) : M JSValue :=
  if negb (ok response) then
    throw (Error ("Graph token error: " ++ Number_toString (Int (status response))
                  ++ " - " ++ text response))
  else
    data <- parse H (text response) ;;
    access_token <- get data "access_token" ;;
    expires_in <- get data "expires_in" ;;
    write_tokenCache
      {| token := access_token;
         expiresAt := Number_add (Int now)
                        (Number_mul (ToNumber H expires_in) (Int 1000)) |} ;;;
    ret access_token.

Definition getGraphToken (H : Host) (now : Z) : M JSValue :=
  cache <- read_tokenCache ;;
  if truthy (token cache) && Number_gt (expiresAt cache) (Int (now + 60000)) then
    ret (token cache)
  else
    response <- fetch H (tokenRequest H) ;;
    receiveToken H now response.

(** The URL and [options] that [graphRequest] hands to [fetch]. *)
Definition options (H : Host) (token : JSValue) (method path : string)
    (body : JSValue) : Request :=
  {| url := "https://graph.microsoft.com/v1.0" ++ path;
     method := method;
     headers := [("Authorization", "Bearer " ++ ToString token);
                 ("Content-Type", "application/json")];
     body := if truthy body then Some (JSON_stringify H body 0) else None |}.

Definition graphRequest (H : Host) (now : Z) (method path : string)
    (body : JSValue) : M JSValue :=
  token <- getGraphToken H now ;;
  response <- fetch H (options H token method path body) ;;
  if negb (ok response) then
    throw (Error ("Graph API error: " ++ Number_toString (Int (status response))
                  ++ " - " ++ text response))
  else if negb (String.eqb (text response) "") then parse H (text response)
  else ret JNull.

Definition stripHtml (html : string) : string :=
  trim
    (collapse_spaces false
       (replace_all tag_match " " O
          (replace_all style_match "" O html))).

(** [stripHtml(v)] on a value: [v.replace] exists on strings only. *)
Definition stripHtml_value (v : JSValue) : M string :=
  match v with
  | JStr s => ret (stripHtml s)
  | _ => throw TypeError
  end.

Definition formatMessage (msg : JSValue) : M JSValue :=
  bodyPreview <- get msg "bodyPreview" ;;
  preview <-
    (if truthy bodyPreview then ret bodyPreview
     else
       b <- get msg "body" ;;
       content <- get_opt b "content" ;;
       stripped <- stripHtml_value (JS_or content (JStr "")) ;;
       ret (JStr (substring 0 200 stripped))) ;;
  id <- get msg "id" ;;
  subject <- get msg "subject" ;;
  from <- get msg "from" ;;
  emailAddress <- get_opt from "emailAddress" ;;
  address <- get_opt emailAddress "address" ;;
  date <- get msg "receivedDateTime" ;;
  isRead <- get msg "isRead" ;;
  hasAttachments <- get msg "hasAttachments" ;;
  ret (JObj [("id", id);
             ("subject", subject);
             ("from", JS_or address (JStr "unknown"));
             ("date", date);
             ("isRead", isRead);
             ("preview", preview);
             ("hasAttachments", hasAttachments)]).

(** [const top = Math.min(count || 10, 50);] *)
Definition top (H : Host) (count : JSValue) : Number :=
  Math_min (ToNumber H (JS_or count (JNum (Int 10)))) (Int 50).

Definition read_inbox_path (H : Host) (count unread_only : JSValue) : string :=
  let filter := if truthy unread_only then "&$filter=isRead eq false" else "" in
  "/users/" ++ ToString (EMAIL_USER H) ++ "/messages?$top="
    ++ Number_toString (top H count)
    ++ "&$orderby=receivedDateTime desc&$select=id,subject,from,receivedDateTime,isRead,bodyPreview,hasAttachments"
    ++ filter.

Definition read_inbox (H : Host) (now : Z) (count unread_only : JSValue)
    : M string :=
  result <- graphRequest H now "GET" (read_inbox_path H count unread_only)
              JUndefined ;;
  value <- get result "value" ;;
  messages <- map_array formatMessage value ;;
  ret (JSON_stringify H messages 2).

(** The arrow function [(r) => r.emailAddress.address]. *)
Definition recipient_address (r : JSValue) : M JSValue :=
  emailAddress <- get r "emailAddress" ;;
  get emailAddress "address".

(** The object [formatted] of [read_email]. *)
Definition formatted (msg : JSValue) : M JSValue :=
  id <- get msg "id" ;;
  subject <- get msg "subject" ;;
  from <- get msg "from" ;;
  emailAddress <- get_opt from "emailAddress" ;;
  address <- get_opt emailAddress "address" ;;
  toRecipients <- get msg "toRecipients" ;;
  to <- map_array recipient_address toRecipients ;;
  ccRecipients <- get msg "ccRecipients" ;;
  cc <- map_array recipient_address ccRecipients ;;
  date <- get msg "receivedDateTime" ;;
  b <- get msg "body" ;;
  content <- get_opt b "content" ;;
  stripped <- stripHtml_value (JS_or content (JStr "")) ;;
  b' <- get msg "body" ;;
  bodyHtml <- get_opt b' "content" ;;
  hasAttachments <- get msg "hasAttachments" ;;
  ret (JObj [("id", id);
             ("subject", subject);
             ("from", address);
             ("to", to);
             ("cc", cc);
             ("date", date);
             ("body", JStr stripped);
             ("bodyHtml", bodyHtml);
             ("hasAttachments", hasAttachments)]).

(** The PATCH that marks the message as read. *)
Definition mark_as_read (H : Host) (now : Z) (message_id : JSValue) : M JSValue :=
  graphRequest H now "PATCH"
    ("/users/" ++ ToString (EMAIL_USER H) ++ "/messages/" ++ ToString message_id)
    (JObj [("isRead", JBool true)]).

(** [now1] is read by the GET, [now2] by the PATCH. *)
Definition read_email (H : Host) (now1 now2 : Z) (message_id : JSValue)
    : M string :=
  msg <- graphRequest H now1 "GET"
           ("/users/" ++ ToString (EMAIL_USER H) ++ "/messages/"
            ++ ToString message_id
            ++ "?$select=id,subject,from,toRecipients,ccRecipients,receivedDateTime,isRead,body,hasAttachments")
           JUndefined ;;
  f <- formatted msg ;;
  catch_ignore (mark_as_read H now2 message_id) ;;;
  ret (JSON_stringify H f 2).

Definition search_emails_path (H : Host) (query count : JSValue) : string :=
  "/users/" ++ ToString (EMAIL_USER H) ++ "/messages?$search=" ++ dquote
    ++ encodeURIComponent H (ToString query) ++ dquote
    ++ "&$top=" ++ Number_toString (top H count)
    ++ "&$select=id,subject,from,receivedDateTime,isRead,bodyPreview,hasAttachments".

Definition search_emails (H : Host) (now : Z) (query count : JSValue)
    : M string :=
  result <- graphRequest H now "GET" (search_emails_path H query count)
              JUndefined ;;
  value <- get result "value" ;;
  messages <- map_array formatMessage value ;;
  ret (JSON_stringify H messages 2).

(** The strings [parseRecipients] keeps: the pieces between commas, trimmed,
    the empty ones dropped. *)
Definition addresses (str : string) : list string :=
  filter (fun e => negb (String.eqb e "")) (map trim (split_comma str)).

Definition parseRecipients (str : string) : list JSValue :=
  map (fun email => JObj [("emailAddress", JObj [("address", JStr email)])])
    (addresses str).

(** [parseRecipients(v)] on a value: [v.split] exists on strings only. *)
Definition parseRecipients_value (v : JSValue) : M (list JSValue) :=
  match v with
  | JStr s => ret (parseRecipients s)
  | _ => throw TypeError
  end.

(** [body.includes("<")]: a substring test on a string, a membership test
    on an array, a [TypeError] on anything else. *)
Definition includes_lt (v : JSValue) : M bool :=
  match v with
  | JStr s => ret (has_char "<" s)
  | JArr items =>
      ret (existsb (fun x => match x with
                             | JStr s => String.eqb s "<"
                             | _ => false
                             end) items)
  | _ => throw TypeError
  end.

(** The object [message] that [send_email] posts. *)
Definition sendMail_payload (subject body : JSValue) (html : bool)
    (toRecipients : list JSValue) (ccRecipients : list (string * JSValue))
    : JSValue :=
  JObj [("message",
         JObj ([("subject", subject);
                ("body", JObj [("contentType", JStr (if html then "HTML" else "Text"));
                               ("content", body)]);
                ("toRecipients", JArr toRecipients)] ++ ccRecipients)%list);
        ("saveToSentItems", JBool true)].

Definition send_email (H : Host) (now : Z) (to subject body cc : JSValue)
    : M string :=
  html <- includes_lt body ;;
  toRecipients <- parseRecipients_value to ;;
  ccRecipients <-
    (if truthy cc then
       l <- parseRecipients_value cc ;; ret [("ccRecipients", JArr l)]
     else ret []) ;;
  graphRequest H now "POST"
    ("/users/" ++ ToString (EMAIL_USER H) ++ "/sendMail")
    (sendMail_payload subject body html toRecipients ccRecipients) ;;;
  ret (JSON_stringify H
         (JObj [("status", JStr "sent");
                ("to", to);
                ("subject", subject);
                ("cc", JS_or cc JNull)]) 0).

Definition reply_to_email (H : Host) (now : Z)
    (message_id body reply_all : JSValue) : M string :=
  let endpoint := if truthy reply_all then "replyAll" else "reply" in
  graphRequest H now "POST"
    ("/users/" ++ ToString (EMAIL_USER H) ++ "/messages/"
     ++ ToString message_id ++ "/" ++ endpoint)
    (JObj [("comment", body)]) ;;;
  ret (JSON_stringify H
         (JObj [("status", JStr "replied");
                ("message_id", message_id);
                ("reply_all", JBool (truthy reply_all))]) 0).

End EmailManager.

(** ** skills/fabric-api *)

Module FabricApi.

Definition tokenRequest (H : Host) : Request :=
  {| url := "https://login.microsoftonline.com/"
            ++ ToString (env H "AZURE_TENANT_ID") ++ "/oauth2/v2.0/token";
     method := "POST";
     headers := [("Content-Type", "application/x-www-form-urlencoded")];
     body := Some (URLSearchParams_toString H
               [("grant_type", "client_credentials");
                ("client_id", ToString (env H "AZURE_CLIENT_ID"));
                ("client_secret", ToString (env H "AZURE_CLIENT_SECRET"));
                ("scope", "https://analysis.windows.net/powerbi/api/.default")]) |}.

(** [getAccessToken] from the point where [await fetch(...)] has settled. *)
Definition receiveToken (H : Host) (now : Z) (response : Response) : M JSValue :=
  if negb (ok response) then
    throw (Error ("Token error: " ++ Number_toString (Int (status response))))
  else
    data <- parse H (text response) ;;
    access_token <- get data "access_token" ;;
    expires_in <- get data "expires_in" ;;
    write_tokenCache
      {| token := access_token;
         expiresAt := Number_add (Int now)
                        (Number_mul (ToNumber H expires_in) (Int 1000)) |} ;;;
    ret access_token.

Definition getAccessToken (H : Host) (now : Z) : M JSValue :=
  cache <- read_tokenCache ;;
  if truthy (token cache) && Number_gt (expiresAt cache) (Int (now + 60000)) then
    ret (token cache)
  else
    response <- fetch H (tokenRequest H) ;;
    receiveToken H now response.

(** [method.toUpperCase()] exists on strings only. *)
Definition toUpperCase_value (v : JSValue) : M string :=
  match v with
  | JStr s => ret (toUpperCase s)
  | _ => throw TypeError
  end.

(** [["POST", "PUT", "PATCH"].includes(m)] *)
Definition carries_body (m : string) : bool :=
  String.eqb m "POST" || String.eqb m "PUT" || String.eqb m "PATCH".

(** The URL and [options] that [fabric_api_call] hands to [fetch]; [m] is
    [method.toUpperCase()]. *)
Definition options (H : Host) (token : JSValue) (m : string)
    (path body : JSValue) : Request :=
  {| url := "https://api.fabric.microsoft.com/v1" ++ ToString path;
     method := m;
     headers := [("Authorization", "Bearer " ++ ToString token);
                 ("Content-Type", "application/json")];
     body :=
       if truthy body && carries_body m then
         Some (match body with
               | JStr s => s
               | _ => JSON_stringify H body 0
               end)
       else None |}.

Definition fabric_api_call (H : Host) (now : Z) (method path body : JSValue)
    : M string :=
  token <- getAccessToken H now ;;
  m <- toUpperCase_value method ;;
  response <- fetch H (options H token m path body) ;;
  data <- (if negb (String.eqb (text response) "") then parse H (text response)
           else ret JNull) ;;
  ret (JSON_stringify H
         (JObj [("status", JNum (Int (status response)));
                ("statusText", JStr (statusText response));
                ("data", data)]) 2).

End FabricApi.

(** ** skills/powerbi-report-builder *)

Module ReportBuilder.

Definition tokenRequest (H : Host) (tenantId clientId clientSecret : JSValue)
    : Request :=
  {| url := "https://login.microsoftonline.com/"
            ++ ToString tenantId ++ "/oauth2/v2.0/token";
     method := "POST";
     headers := [("Content-Type", "application/x-www-form-urlencoded")];
     body := Some (URLSearchParams_toString H
               [("grant_type", "client_credentials");
                ("client_id", ToString clientId);
                ("client_secret", ToString clientSecret);
                ("scope", "https://analysis.windows.net/powerbi/api/.default")]) |}.

(** [getAccessToken] from the point where [await fetch(...)] has settled. *)
Definition receiveToken (H : Host) (now : Z) (response : Response) : M JSValue :=
  if negb (ok response) then
    throw (Error ("Azure AD token error: " ++ Number_toString (Int (status response))
                  ++ " - " ++ text response))
  else
    data <- parse H (text response) ;;
    access_token <- get data "access_token" ;;
    expires_in <- get data "expires_in" ;;
    write_tokenCache
      {| token := access_token;
         expiresAt := Number_add (Int now)
                        (Number_mul (ToNumber H expires_in) (Int 1000)) |} ;;;
    ret access_token.

Definition getAccessToken (H : Host) (now : Z) : M JSValue :=
  cache <- read_tokenCache ;;
  if truthy (token cache) && Number_gt (expiresAt cache) (Int (now + 60000)) then
    ret (token cache)
  else
    let tenantId := env H "AZURE_TENANT_ID" in
    let clientId := env H "AZURE_CLIENT_ID" in
    let clientSecret := env H "AZURE_CLIENT_SECRET" in
    if negb (truthy tenantId) || negb (truthy clientId)
       || negb (truthy clientSecret) then
      throw (Error "Missing Azure AD credentials. Set AZURE_TENANT_ID, AZURE_CLIENT_ID, AZURE_CLIENT_SECRET in .env")
    else
      response <- fetch H (tokenRequest H tenantId clientId clientSecret) ;;
      receiveToken H now response.

(** The URL and [options] that [fabricApiRequest] hands to [fetch]. *)
Definition options (H : Host) (token : JSValue) (method path : string)
    (body : JSValue) : Request :=
  let baseUrl := "https://api.fabric.microsoft.com/v1" in
  {| url := baseUrl ++ path;
     method := method;
     headers := [("Authorization", "Bearer " ++ ToString token);
                 ("Content-Type", "application/json")];
     body := if truthy body then Some (JSON_stringify H body 0) else None |}.

Definition fabricApiRequest (H : Host) (now : Z) (method path : string)
    (body : JSValue) : M JSValue :=
  token <- getAccessToken H now ;;
  response <- fetch H (options H token method path body) ;;
  if negb (ok response) then
    throw (Error ("Fabric API error: " ++ Number_toString (Int (status response))
                  ++ " - " ++ text response))
  else if negb (String.eqb (text response) "") then parse H (text response)
  else ret JNull.

(** The arrow function of [listSemanticModels] and [listReports]. *)
Definition summary (item : JSValue) : M JSValue :=
  id <- get item "id" ;;
  displayName <- get item "displayName" ;;
  description <- get item "description" ;;
  ret (JObj [("id", id);
             ("name", displayName);
             ("description", JS_or description (JStr ""))]).

Definition listSemanticModels (H : Host) (now : Z) : M JSValue :=
  let workspaceId := env H "POWERBI_WORKSPACE_ID" in
  if negb (truthy workspaceId) then
    throw (Error "POWERBI_WORKSPACE_ID not configured")
  else
    result <- fabricApiRequest H now "GET"
                ("/workspaces/" ++ ToString workspaceId ++ "/semanticModels")
                JNull ;;
    value <- get result "value" ;;
    map_strict summary value.

Definition getSemanticModelSchema (H : Host) (now : Z)
    (semanticModelId : JSValue) : M JSValue :=
  let workspaceId := env H "POWERBI_WORKSPACE_ID" in
  fabricApiRequest H now "POST"
    ("/workspaces/" ++ ToString workspaceId ++ "/semanticModels/"
     ++ ToString semanticModelId ++ "/getDefinition")
    JNull.

Definition listReports (H : Host) (now : Z) : M JSValue :=
  let workspaceId := env H "POWERBI_WORKSPACE_ID" in
  result <- fabricApiRequest H now "GET"
              ("/workspaces/" ++ ToString workspaceId ++ "/reports") JNull ;;
  value <- get result "value" ;;
  map_strict summary value.

Definition list_semantic_models (H : Host) (now : Z) : M string :=
  models <- listSemanticModels H now ;;
  ret (JSON_stringify H models 2).

Definition get_semantic_model_schema (H : Host) (now : Z)
    (semantic_model_id : JSValue) : M string :=
  schema <- getSemanticModelSchema H now semantic_model_id ;;
  ret (JSON_stringify H schema 2).

Definition list_reports (H : Host) (now : Z) : M string :=
  reports <- listReports H now ;;
  ret (JSON_stringify H reports 2).

End ReportBuilder.

(** ** The workspace manager skill *)

Module WorkspaceManager.

Definition tokenRequest (H : Host) : Request :=
  {| url := "https://login.microsoftonline.com/"
            ++ ToString (env H "AZURE_TENANT_ID") ++ "/oauth2/v2.0/token";
     method := "POST";
     headers := [("Content-Type", "application/x-www-form-urlencoded")];
     body := Some (URLSearchParams_toString H
               [("grant_type", "client_credentials");
                ("client_id", ToString (env H "AZURE_CLIENT_ID"));
                ("client_secret", ToString (env H "AZURE_CLIENT_SECRET"));
                ("scope", "https://analysis.windows.net/powerbi/api/.default")]) |}.

(** [getAccessToken] from the point where [await fetch(...)] has settled. *)
Definition receiveToken (H : Host) (now : Z) (response : Response) : M JSValue :=
  if negb (ok response) then
    throw (Error ("Token error: " ++ Number_toString (Int (status response))))
  else
    data <- parse H (text response) ;;
    access_token <- get data "access_token" ;;
    expires_in <- get data "expires_in" ;;
    write_tokenCache
      {| token := access_token;
         expiresAt := Number_add (Int now)
                        (Number_mul (ToNumber H expires_in) (Int 1000)) |} ;;;
    ret access_token.

Definition getAccessToken (H : Host) (now : Z) : M JSValue :=
  cache <- read_tokenCache ;;
  if truthy (token cache) && Number_gt (expiresAt cache) (Int (now + 60000)) then
    ret (token cache)
  else
    response <- fetch H (tokenRequest H) ;;
    receiveToken H now response.

(** The URL and options that [apiRequest] hands to [fetch]. *)
Definition options (token : JSValue) (method path : string) : Request :=
  {| url := "https://api.fabric.microsoft.com/v1" ++ path;
     method := method;
     headers := [("Authorization", "Bearer " ++ ToString token);
                 ("Content-Type", "application/json")];
     body := None |}.

Definition apiRequest (H : Host) (now : Z) (method path : string) : M JSValue :=
  token <- getAccessToken H now ;;
  response <- fetch H (options token method path) ;;
  if negb (ok response) then
    throw (Error ("API error: " ++ Number_toString (Int (status response))
                  ++ " - " ++ text response))
  else if negb (String.eqb (text response) "") then parse H (text response)
  else ret JNull.

Definition get_workspace_info (H : Host) (now : Z) : M string :=
  let workspaceId := env H "POWERBI_WORKSPACE_ID" in
  result <- apiRequest H now "GET" ("/workspaces/" ++ ToString workspaceId) ;;
  ret (JSON_stringify H result 2).

Definition list_workspace_items_path (H : Host) (item_type : JSValue) : string :=
  let workspaceId := env H "POWERBI_WORKSPACE_ID" in
  let path := "/workspaces/" ++ ToString workspaceId ++ "/items" in
  if truthy item_type then path ++ "?type=" ++ ToString item_type else path.

Definition list_workspace_items (H : Host) (now : Z) (item_type : JSValue)
    : M string :=
  result <- apiRequest H now "GET" (list_workspace_items_path H item_type) ;;
  value <- get result "value" ;;
  ret (JSON_stringify H (JS_or value result) 2).

(** The request of [get_report_pages]: no method is given, so [fetch] makes
    it a GET, and the only header is the authorization. *)
Definition pagesRequest (H : Host) (token report_id : JSValue) : Request :=
  let workspaceId := env H "POWERBI_WORKSPACE_ID" in
  {| url := "https://api.powerbi.com/v1.0/myorg/groups/" ++ ToString workspaceId
            ++ "/reports/" ++ ToString report_id ++ "/pages";
     method := "GET";
     headers := [("Authorization", "Bearer " ++ ToString token)];
     body := None |}.

(** [JSON.stringify] hands back [undefined], not a string, on [undefined]. *)
Definition get_report_pages (H : Host) (now : Z) (report_id : JSValue)
    : M JSValue :=
  token <- getAccessToken H now ;;
  response <- fetch H (pagesRequest H token report_id) ;;
  if negb (ok response) then
    throw (Error ("API error: " ++ Number_toString (Int (status response))))
  else
    data <- parse H (text response) ;;
    value <- get data "value" ;;
    match value with
    | JUndefined => ret JUndefined
    | _ => ret (JStr (JSON_stringify H value 2))
    end.

End WorkspaceManager.

(** ** skills/powerbi-news-tracker *)

Module NewsTracker.

(** The successive matches of the expression built from [tag], each
    captured group trimmed. *)
Fixpoint extract_from (tag : string) (skip : nat) (xml : string) : list string :=
  match xml with
  | EmptyString => []
  | String _ xml' =>
      match skip with
      | S k => extract_from tag k xml'
      | O =>
          match element_match tag xml with
          | Some (group, rest) =>
              trim group
                :: extract_from tag
                     (String.length xml - String.length rest - 1) xml'
          | None => extract_from tag O xml'
          end
      end
  end.

Definition extractTag (xml tag : string) : list string := extract_from tag O xml.

(** A match of [/<!\[CDATA\[([\s\S]*?)\]\]>/] at the head of [s]. *)
Definition cdata_match (s : string) : option (string * string) :=
  match strip_prefix "<![CDATA[" s with
  | None => None
  | Some r => split_first "]]>" r
  end.

(** [s.replace(/entity/g, by)] for a literal [entity]. *)
Definition replace_literal (entity by_ s : string) : string :=
  replace_all (strip_prefix entity) by_ O s.

Definition cleanContent (text : string) : string :=
  trim
    (collapse_spaces false
       (replace_literal "&#39;" "'"
          (replace_literal "&quot;" dquote
             (replace_literal "&gt;" ">"
                (replace_literal "&lt;" "<"
                   (replace_literal "&amp;" "&"
                      (replace_all tag_match "" O
                         (replace_by_group cdata_match O text)))))))).

(** The request [fetch(url, { headers: { "User-Agent": ... } })]. *)
Definition pageRequest (url : string) : Request :=
  {| url := url;
     method := "GET";
     headers := [("User-Agent", "FabioBot/1.0 (Power BI Knowledge Tracker)")];
     body := None |}.

(** [l[i] || ""] *)
Definition at_or_empty (l : list string) (i : nat) : string :=
  match nth_error l i with
  | Some s => s
  | None => ""
  end.

(** The [for] loop of [fetchRssFeed] from index [i] on: [rest] holds
    [titles[i]], [titles[i + 1]], ... and [count] is [items.length]. *)
Fixpoint feed_items (maxItems : Number) (links pubDates descriptions : list string)
    (i count : nat) (rest : list string) : list JSValue :=
  match rest with
  | [] => []
  | title :: rest' =>
      if Number_gt maxItems (Int (Z.of_nat count)) then
        JObj [("title", JStr (cleanContent title));
              ("link", JStr (cleanContent (at_or_empty links i)));
              ("date", JStr (match nth_error pubDates (i - 1) with
                             | Some d =>
                                 if String.eqb d "" then "" else cleanContent d
                             | None => ""
                             end));
              ("summary",
               JStr (substring 0 300 (cleanContent (at_or_empty descriptions i))))]
          :: feed_items maxItems links pubDates descriptions (S i) (S count) rest'
      else []
  end.

Definition fetchRssFeed (H : Host) (url : string) (maxItems : Number)
    : M (list JSValue) :=
  response <- fetch H (pageRequest url) ;;
  if negb (ok response) then
    throw (Error ("Failed to fetch RSS feed: "
                  ++ Number_toString (Int (status response)) ++ " " ++ url))
  else
    let xml := text response in
    let titles := extractTag xml "title" in
    let links := extractTag xml "link" in
    let pubDates := extractTag xml "pubDate" in
    let descriptions := extractTag xml "description" in
    ret (feed_items maxItems links pubDates descriptions 1 0 (tl titles)).



Definition searchUrl (H : Host) (query : string) : string :=
  "https://learn.microsoft.com/en-us/search/?terms="
    ++ encodeURIComponent H query ++ "&products=power-bi,fabric".

Definition searchRequest (H : Host) (query : string) : Request :=
  pageRequest
    ("https://learn.microsoft.com/api/search?search="
     ++ encodeURIComponent H query
     ++ "&locale=en-us&facet=category&facet=products&%24filter=products%2Fany(p%3A%20p%20eq%20%27power-bi%27%20or%20p%20eq%20%27fabric%27)&%24top=8").

(** [(v || "").substring(0, 200)]: [substring] exists on strings only. *)
Definition description_of (v : JSValue) : M JSValue :=
  match JS_or v (JStr "") with
  | JStr s => ret (JStr (substring 0 200 s))
  | _ => throw TypeError
  end.

(** The arrow function that [searchMsLearn] maps over [data.results]. *)
Definition search_result (r : JSValue) : M JSValue :=
  title <- get r "title" ;;
  url <- get r "url" ;;
  description <- get r "description" ;;
  short <- description_of description ;;
  lastUpdatedDate <- get r "lastUpdatedDate" ;;
  ret (JObj [("title", JS_or title (JStr ""));
             ("url", JS_or url (JStr ""));
             ("description", short);
             ("lastUpdated", JS_or lastUpdatedDate (JStr ""))]).

(** The object [{ results, searchUrl }] as a pair. *)
Definition searchMsLearn (H : Host) (query : string) : M (JSValue * string) :=
  response <- fetch H (searchRequest H query) ;;
  if negb (ok response) then ret (JArr [], searchUrl H query)
  else
    data <- parse H (text response) ;;
    found <- get data "results" ;;
    results <- map_array search_result found ;;
    ret (results, searchUrl H query).






End NewsTracker.

(** ** Freshness and interleaved refreshes *)

(** The test every [getToken] copy makes on entry. *)
Definition fresh (c : TokenCache) (now : Z) : bool :=
  truthy (token c) && Number_gt (expiresAt c) (Int (now + 60000)).

(** The cache holds a token whose [expiresAt] exceeds [now + 60000]. *)
Definition holds_fresh_token (c : TokenCache) (now : Z) : Prop :=
  truthy (token c) = true /\ exists e, expiresAt c = Int e /\ now + 60000 < e.

(** No token is cached, or the cached one has [expiresAt <= now + 60000]. *)
Definition stale (c : TokenCache) (now : Z) : Prop :=
  truthy (token c) = false \/ exists e, expiresAt c = Int e /\ e <= now + 60000.

(** The record a successful exchange begun at [now] stores for the parsed
    body [data]. *)
Definition issuedCache (H : Host) (now : Z) (data : JSValue) : TokenCache :=
  {| token := prop data "access_token";
     expiresAt := Number_add (Int now)
                    (Number_mul (ToNumber H (prop data "expires_in")) (Int 1000)) |}.

(** Calls in flight at the same time: every [await] is a point where another
    call may run.  A call that misses the cache sends its request and waits;
    when its response arrives the rest of the function ([receive]) runs
    without interruption on the cache as it is then.  The [await] on
    [response.json()] in between touches no shared variable and is merged
    into that last segment. *)
Record System : Type := {
  shared : State;
  inflight : list Z;
  delivered : list (Z * Response)
}.

Definition initialSystem : System :=
  {| shared := {| tokenCache := initialCache; sent := [] |};
     inflight := [];
     delivered := [] |}.

Fixpoint remove_one (now : Z) (l : list Z) : list Z :=
  match l with
  | [] => []
  | x :: rest => if x =? now then rest else x :: remove_one now rest
  end.

Section Interleaving.

Variable request : Request.
Variable receive : Z -> Response -> M JSValue.

Inductive step : System -> System -> Prop :=
| step_hit (now : Z) (sys : System) :
    fresh (tokenCache (shared sys)) now = true ->
    step sys sys
| step_miss (now : Z) (sys : System) :
    fresh (tokenCache (shared sys)) now = false ->
    step sys
      {| shared := {| tokenCache := tokenCache (shared sys);
                      sent := (sent (shared sys) ++ [request])%list |};
         inflight := now :: inflight sys;
         delivered := delivered sys |}
| step_settle (now : Z) (r : Response) (sys : System) :
    In now (inflight sys) ->
    step sys
      {| shared := snd (receive now r (shared sys));
         inflight := remove_one now (inflight sys);
         delivered := (now, r) :: delivered sys |}
| step_reject (now : Z) (sys : System) :
    In now (inflight sys) ->
    step sys
      {| shared := shared sys;
         inflight := remove_one now (inflight sys);
         delivered := delivered sys |}.

Inductive reachable : System -> Prop :=
| reachable_init : reachable initialSystem
| reachable_step (sys sys' : System) :
    reachable sys -> step sys sys' -> reachable sys'.

End Interleaving.

(** The cached pair is the initial one or comes, both fields, from one
    delivered response. *)
Definition paired (H : Host) (sys : System) : Prop :=
  tokenCache (shared sys) = initialCache \/
  exists now r data,
    In (now, r) (delivered sys) /\ ok r = true /\
    JSON_parse H (text r) = Some data /\
    tokenCache (shared sys) = issuedCache H now data.

(** ** The properties under study *)

(** The refresh property of one [getToken] copy.  At a reading [now] where
    the cache is stale the call sends exactly one request, the token
    exchange; when the exchange answers 2xx with a JSON object carrying a
    non-empty string [access_token] and a number [expires_in], the call
    returns that token and the cache becomes the pair (token,
    [now + expires_in * 1000]); and, for the lifetimes [expires_in] that
    [lifetime] admits, a second call at the same [now] returns the token
    from the new state and leaves that state alone. *)
Definition refresh_property (lifetime : Z -> Prop)
    (getToken : Host -> Z -> M JSValue) (tokenRequest : Host -> Request) : Prop :=
  forall (H : Host) (now : Z) (st : State),
    stale (tokenCache st) now ->
    sent (snd (getToken H now st)) = (sent st ++ [tokenRequest H])%list /\
    forall (r : Response) (fields : list (string * JSValue)) (tok : string) (e : Z),
      network H (sent st) (tokenRequest H) = Responded r ->
      ok r = true ->
      JSON_parse H (text r) = Some (JObj fields) ->
      lookup fields "access_token" = JStr tok ->
      tok <> "" ->
      lookup fields "expires_in" = JNum (Int e) ->
      getToken H now st = (Return (JStr tok), snd (getToken H now st)) /\
      tokenCache (snd (getToken H now st))
        = {| token := JStr tok; expiresAt := Int (now + e * 1000) |} /\
      (lifetime e ->
       getToken H now (snd (getToken H now st))
       = (Return (JStr tok), snd (getToken H now st))).

(** The completion is a thrown [Error] whose message is some label followed
    by the status of [r], [" - "] and the raw text of [r]. *)
Definition fails_carrying {A : Type} (c : Completion A) (r : Response) : Prop :=
  exists label,
    c = Throw (Error (label ++ Number_toString (Int (status r)) ++ " - " ++ text r)).

(** The state once [req] has gone out from [st]. *)
Definition after_sending (st : State) (req : Request) : State :=
  {| tokenCache := tokenCache st; sent := (sent st ++ [req])%list |}.

(** Every authenticated request fails, carrying status and text, on a
    non-2xx answer of the target API: the three wrappers the claim cites. *)
Definition api_error_as_stated : Prop :=
  (forall H now st method path body tok st1 r,
     EmailManager.getGraphToken H now st = (Return tok, st1) ->
     network H (sent st1) (EmailManager.options H tok method path body)
       = Responded r ->
     ok r = false ->
     fails_carrying (fst (EmailManager.graphRequest H now method path body st)) r) /\
  (forall H now st method path body tok st1 r,
     ReportBuilder.getAccessToken H now st = (Return tok, st1) ->
     network H (sent st1) (ReportBuilder.options H tok method path body)
       = Responded r ->
     ok r = false ->
     fails_carrying (fst (ReportBuilder.fabricApiRequest H now method path body st)) r) /\
  (forall H now st m path body tok st1 r,
     FabricApi.getAccessToken H now st = (Return tok, st1) ->
     network H (sent st1) (FabricApi.options H tok (toUpperCase m) path body)
       = Responded r ->
     ok r = false ->
     fails_carrying (fst (FabricApi.fabric_api_call H now (JStr m) path body st)) r).

(** Non-destructive failure of one [getToken] copy.  [receiveToken H now r]
    is the rest of a call begun at [now] once its exchange has been answered
    by [r]; [st] is the state at that moment, which another call may have
    written in the meantime.  On a non-2xx [r] the rest of the call throws
    and the state stays [st]; and a later call at [now'], in time for the
    cached token according to [in_time now' expiresAt], returns the cached
    token and sends nothing. *)
Definition failure_preserves (in_time : Z -> Z -> Prop)
    (getToken : Host -> Z -> M JSValue)
    (receiveToken : Host -> Z -> Response -> M JSValue) : Prop :=
  forall (H : Host) (now : Z) (r : Response) (st : State),
    ok r = false ->
    (exists e, receiveToken H now r st = (Throw e, st)) /\
    forall (tok : JSValue) (e now' : Z),
      tokenCache st = {| token := tok; expiresAt := Int e |} ->
      truthy tok = true ->
      in_time now' e ->
      getToken H now' (snd (receiveToken H now r st)) = (Return tok, st).

(** From [sys] to [sys'] the cache is untouched, or both of its fields come
    from one delivered 2xx response and the [now] of the call it answers. *)
Definition replaced_as_unit (H : Host) (sys sys' : System) : Prop :=
  tokenCache (shared sys') = tokenCache (shared sys) \/
  exists now r data,
    In (now, r) (delivered sys') /\ ok r = true /\
    JSON_parse H (text r) = Some data /\
    tokenCache (shared sys') = issuedCache H now data.

(** A computation that leaves the state alone. *)
Definition pure {A : Type} (m : M A) : Prop := forall st, snd (m st) = st.

(** ** Shapes of strings *)

(** The matcher [m] succeeds at no position of [s]. *)
Fixpoint unmatched (m : string -> option string) (s : string) : Prop :=
  match s with
  | EmptyString => True
  | String _ s' => m s = None /\ unmatched m s'
  end.

(** The regular expression [/<[^>]+>/] matches nowhere in [s]. *)
Definition tag_free (s : string) : Prop := unmatched tag_match s.

(** Every whitespace character of [s] is a space, and no space follows a
    space; [after_space] tells whether a space stands just before [s]. *)
Fixpoint single_spaced (after_space : bool) (s : string) : bool :=
  match s with
  | EmptyString => true
  | String c s' =>
      if is_space c then
        Ascii.eqb c " " && negb after_space && single_spaced true s'
      else single_spaced false s'
  end.

Definition starts_with_space (s : string) : bool :=
  match s with
  | EmptyString => false
  | String c _ => is_space c
  end.

Fixpoint ends_with_space (s : string) : bool :=
  match s with
  | EmptyString => false
  | String c EmptyString => is_space c
  | String _ s' => ends_with_space s'
  end.

(** Words separated by single spaces: what [stripHtml] hands back. *)
Definition normalized (s : string) : Prop :=
  starts_with_space s = false /\ ends_with_space s = false /\
  single_spaced false s = true.

(** An address as [parseRecipients] keeps it: not empty, without a comma,
    without whitespace at either end. *)
Definition clean_address (a : string) : Prop :=
  a <> "" /\ has_char "," a = false /\
  starts_with_space a = false /\ ends_with_space a = false.

(** Run from any state, [m] hands at most [n] further requests to [fetch]
    and erases none. *)
Definition sends_at_most {A : Type} (n : nat) (m : M A) : Prop :=
  forall st,
    exists extra,
      sent (snd (m st)) = (sent st ++ extra)%list /\ (List.length extra <= n)%nat.

(** The answer [r] of the target API as a wrapper hands it back: [null] for
    an empty body, the parsed body otherwise. *)
Definition body_value (H : Host) (r : Response) (v : JSValue) : Prop :=
  if String.eqb (text r) "" then v = JNull else JSON_parse H (text r) = Some v.

(** A 2xx exchange whose JSON object has no [expires_in]: the token is
    returned, the stored expiry is [NaN], and every later call, at whatever
    time, sends a new exchange. *)
Definition unusable_without_lifetime
    (getToken : Host -> Z -> M JSValue) (tokenRequest : Host -> Request) : Prop :=
  forall (H : Host) (now : Z) (st : State) (r : Response)
         (fields : list (string * JSValue)),
    stale (tokenCache st) now ->
    network H (sent st) (tokenRequest H) = Responded r ->
    ok r = true ->
    JSON_parse H (text r) = Some (JObj fields) ->
    lookup fields "expires_in" = JUndefined ->
    getToken H now st
      = (Return (lookup fields "access_token"), snd (getToken H now st)) /\
    expiresAt (tokenCache (snd (getToken H now st))) = NaN /\
    forall now',
      sent (snd (getToken H now' (snd (getToken H now st))))
      = (sent (snd (getToken H now st)) ++ [tokenRequest H])%list.

(** After a refresh at [now] that stored token [tok] with lifetime [e]
    seconds, a call at [now'] reuses the token exactly while
    [now' + 60000 < now + e * 1000]; from then on it sends a new exchange. *)
Definition reuse_window
    (getToken : Host -> Z -> M JSValue) (tokenRequest : Host -> Request) : Prop :=
  forall (H : Host) (now : Z) (st : State) (r : Response)
         (fields : list (string * JSValue)) (tok : string) (e : Z),
    stale (tokenCache st) now ->
    network H (sent st) (tokenRequest H) = Responded r ->
    ok r = true ->
    JSON_parse H (text r) = Some (JObj fields) ->
    lookup fields "access_token" = JStr tok ->
    tok <> "" ->
    lookup fields "expires_in" = JNum (Int e) ->
    forall now',
      (now' + 60000 < now + e * 1000 ->
       getToken H now' (snd (getToken H now st))
       = (Return (JStr tok), snd (getToken H now st))) /\
      (now + e * 1000 <= now' + 60000 ->
       sent (snd (getToken H now' (snd (getToken H now st))))
       = (sent (snd (getToken H now st)) ++ [tokenRequest H])%list).


(** ** Test doubles *)

Module Doubles.

Definition form (l : list (string * string)) : string :=
  String.concat "&" (map (fun kv => fst kv ++ "=" ++ snd kv) l).

Definition host (vars : string -> option string)
    (net : list Request -> Request -> FetchOutcome)
    (parser : string -> option JSValue) : Host :=
  {| process_env := vars;
     network := net;
     JSON_parse := parser;
     JSON_stringify := fun v _ => ToString v;
     URLSearchParams_toString := form;
     encodeURIComponent := fun s => s;
     StringToNumber := fun _ => NaN |}.

Definition no_env : string -> option string := fun _ => None.

Definition tokenBody (tok : string) (seconds : Z) : JSValue :=
  JObj [("access_token", JStr tok); ("expires_in", JNum (Int seconds))].

(** A parser that knows three bodies. *)
Definition parser (s : string) : option JSValue :=
  if String.eqb s "T1 for 3600 s" then Some (tokenBody "T1" 3600)
  else if String.eqb s "T1 for 60 s" then Some (tokenBody "T1" 60)
  else if String.eqb s "message m1" then
    Some (JObj [("id", JStr "m1"); ("subject", JStr "Hi")])
  else None.

Definition respond (code : Z) (reason body : string) : Response :=
  {| status := code; statusText := reason; text := body |}.

Definition always (r : Response) : list Request -> Request -> FetchOutcome :=
  fun _ _ => Responded r.

(** An identity provider and API that answer 500 to everything. *)
Definition down : Host :=
  host no_env (always (respond 500 "Internal Server Error" "")) parser.

(** An identity provider that issues T1 for 60 seconds, every time. *)
Definition short_lived : Host :=
  host no_env (always (respond 200 "OK" "T1 for 60 s")) parser.

(** An identity provider that issues T1 for an hour, every time. *)
Definition hourly : Host :=
  host no_env (always (respond 200 "OK" "T1 for 3600 s")) parser.

(** A target API that answers 404 with an empty body. *)
Definition not_found : Host :=
  host no_env (always (respond 404 "Not Found" "")) parser.

(** A target API that answers 404 with a plain-text body. *)
Definition not_found_text : Host :=
  host no_env (always (respond 404 "Not Found" "not found")) parser.

(** A target API that answers 204 with an empty body. *)
Definition no_content : Host :=
  host no_env (always (respond 204 "No Content" "")) parser.

(** An identity provider that refuses the client. *)
Definition denial : Response :=
  respond 401 "Unauthorized" "AADSTS7000215: Invalid client secret provided.".

Definition unauthorized : Host := host no_env (always denial) parser.

(** A Graph API that serves message m1 to the first request and answers 500
    to every later one. *)
Definition flaky : Host :=
  host no_env
    (fun history _ =>
       match history with
       | [] => Responded (respond 200 "OK" "message m1")
       | _ :: _ => Responded (respond 500 "Internal Server Error" "busy")
       end)
    parser.

Definition empty : State := {| tokenCache := initialCache; sent := [] |}.

Definition caching (tok : string) (e : Z) : State :=
  {| tokenCache := {| token := JStr tok; expiresAt := Int e |}; sent := [] |}.

(** An identity provider whose answer carries a token and no lifetime. *)
Definition no_lifetime : Host :=
  host no_env (always (respond 200 "OK" "T1 without lifetime"))
    (fun s =>
       if String.eqb s "T1 without lifetime" then
         Some (JObj [("access_token", JStr "T1")])
       else None).

(** An identity provider that answers 200 with a page that is not JSON. *)
Definition garbled : Host :=
  host no_env (always (respond 200 "OK" "<html>maintenance</html>")) parser.

(** A network that is down: every [fetch] rejects. *)
Definition offline : Host :=
  host no_env (fun _ _ => Rejected TypeError) parser.

(** A Graph API that answers 200 with a JSON object that has no [value]. *)
Definition no_value : Host :=
  host no_env (always (respond 200 "OK" "message m1")) parser.

(** The Azure variables are set, the workspace is not. *)
Definition azure_env (name : string) : option string :=
  if String.eqb name "AZURE_TENANT_ID" then Some "tenant"
  else if String.eqb name "AZURE_CLIENT_ID" then Some "client"
  else if String.eqb name "AZURE_CLIENT_SECRET" then Some "secret"
  else None.

Definition no_workspace : Host :=
  host azure_env (always (respond 200 "OK" "T1 for 3600 s")) parser.

(** A feed of three entries after its own title, links and descriptions
    aligned with the titles, dates with the entries. *)
Definition feed : Host :=
  host no_env
    (always (respond 200 "OK"
       "<title>Blog</title><link>l0</link><description>d0</description><item><title>A</title><link>l1</link><pubDate>Mon</pubDate><description>one</description></item><item><title>B</title><link>l2</link><pubDate>Tue</pubDate><description>two</description></item><item><title>C</title><link>l3</link><pubDate>Wed</pubDate><description>three</description></item>"))
    parser.


End Doubles.

(** ** Running the monad *)

Ltac run :=
  cbv beta iota zeta delta
    [bind ret throw read_tokenCache write_tokenCache fetch parse get get_opt
     catch_ignore].

(** ** The model on the scenarios of the specification *)

(** Token T1 for 3600 s issued at [now = 0]: one exchange; at 1000 the
    cached token is returned and nothing is sent; from 3540000 on, that is
    from [expiresAt - 60000], a call sends a second exchange. *)
Example scenario_token_lifecycle :
  let s0 := Doubles.empty in
  let s1 := snd (EmailManager.getGraphToken Doubles.hourly 0 s0) in
  let s2 := snd (EmailManager.getGraphToken Doubles.hourly 1000 s1) in
  let s3 := snd (EmailManager.getGraphToken Doubles.hourly 3540001 s2) in
  fst (EmailManager.getGraphToken Doubles.hourly 0 s0) = Return (JStr "T1") /\
  List.length (sent s1) = 1%nat /\
  fst (EmailManager.getGraphToken Doubles.hourly 1000 s1) = Return (JStr "T1") /\
  List.length (sent s2) = 1%nat /\
  fst (EmailManager.getGraphToken Doubles.hourly 3540000 s2) = Return (JStr "T1") /\
  List.length (sent (snd (EmailManager.getGraphToken Doubles.hourly 3540000 s2)))
  = 2%nat /\
  List.length (sent s3) = 2%nat.
Proof. vm_compute. repeat split. Qed.

Example scenario_not_found :
  fst (ReportBuilder.fabricApiRequest Doubles.not_found_text 0 "GET" "/foo" JNull
         (Doubles.caching "T1" 3600000))
  = Throw (Error "Fabric API error: 404 - not found").
Proof. reflexivity. Qed.

Example scenario_unauthorized :
  fst (EmailManager.getGraphToken Doubles.unauthorized 0 Doubles.empty)
  = Throw (Error "Graph token error: 401 - AADSTS7000215: Invalid client secret provided.").
Proof. reflexivity. Qed.

Example stripHtml_example :
  EmailManager.stripHtml "<STYLE type=x>p{}</style><p>Hello <b>World</b></p>"
  = "Hello World".
Proof. reflexivity. Qed.

Lemma holds_fresh_token_fresh (c : TokenCache) (now : Z) :
  holds_fresh_token c now -> fresh c now = true.
Proof.
  intros [Ht [e [He Hlt]]]. unfold fresh. rewrite Ht, He. simpl.
  apply Z.ltb_lt. exact Hlt.
Qed.

Lemma stale_not_fresh (c : TokenCache) (now : Z) :
  stale c now -> fresh c now = false.
Proof.
  unfold fresh. intros [Ht | [e [He Hle]]].
  - rewrite Ht. reflexivity.
  - rewrite He. simpl. apply andb_false_iff. right. apply Z.ltb_ge. exact Hle.
Qed.

(** C1.  Freshness: whenever the cache holds a token (the [token] field is
    truthy, which is the test the code makes) whose [expiresAt] is strictly
    greater than [now + 60000], [getGraphToken] and both [getAccessToken]
    copies return the cached value and leave the state as it was: nothing is
    added to the requests sent. *)
Theorem C1_freshness (H : Host) (now : Z) (st : State) :
  holds_fresh_token (tokenCache st) now ->
  EmailManager.getGraphToken H now st = (Return (token (tokenCache st)), st) /\
  FabricApi.getAccessToken H now st = (Return (token (tokenCache st)), st) /\
  ReportBuilder.getAccessToken H now st = (Return (token (tokenCache st)), st).
Proof.
  intros Hf. apply holds_fresh_token_fresh in Hf. unfold fresh in Hf.
  unfold EmailManager.getGraphToken, FabricApi.getAccessToken,
    ReportBuilder.getAccessToken.
  run. rewrite Hf. repeat split.
Qed.

Lemma C1_freshness_witness :
  holds_fresh_token (tokenCache (Doubles.caching "T1" 3600000)) 1000 /\
  EmailManager.getGraphToken Doubles.down 1000 (Doubles.caching "T1" 3600000)
  = (Return (JStr "T1"), Doubles.caching "T1" 3600000).
Proof.
  assert (Hf : holds_fresh_token (tokenCache (Doubles.caching "T1" 3600000)) 1000).
  { split; [reflexivity | exists 3600000; split; [reflexivity | lia]]. }
  split; [exact Hf |].
  exact (proj1 (C1_freshness Doubles.down 1000 (Doubles.caching "T1" 3600000) Hf)).
Defined.

Lemma truthy_JStr (s : string) : s <> "" -> truthy (JStr s) = true.
Proof.
  intros Hs. simpl. destruct (String.eqb_spec s ""); [contradiction | reflexivity].
Qed.

(** Both copies cited by the refresh claim share this proof. *)
Ltac refresh_proof getToken receiveToken tokenRequest :=
  intros H now st Hstale;
  apply stale_not_fresh in Hstale; unfold fresh in Hstale;
  split;
  [ unfold getToken; run; rewrite Hstale;
    destruct (network H (sent st) _) as [r | ex]; [| reflexivity];
    unfold receiveToken; run;
    destruct (ok r); simpl; [| reflexivity];
    destruct (JSON_parse H (text r)) as [[| | b | n | s | items | fields] |];
    reflexivity
  | intros r fields tok e Hnet Hok Hparse Htok Hne Hexp;
    assert (Hfirst :
      getToken H now st
      = (Return (JStr tok),
         {| tokenCache := {| token := JStr tok; expiresAt := Int (now + e * 1000) |};
            sent := (sent st ++ [tokenRequest H])%list |}));
    [ unfold getToken; run; rewrite Hstale, Hnet;
      unfold receiveToken; run; rewrite Hok; simpl; rewrite Hparse; simpl;
      rewrite Htok, Hexp; reflexivity
    | rewrite Hfirst; cbn [snd tokenCache];
      split; [reflexivity | split; [reflexivity |]];
      intros Hlife;
      unfold getToken; run; cbn [tokenCache token expiresAt fst snd];
      rewrite (truthy_JStr tok Hne); cbn [andb Number_gt];
      replace (now + 60000 <? now + e * 1000) with true
        by (symmetry; apply Z.ltb_lt; lia);
      reflexivity ] ].

(** C2 (amended).  Refresh: at every reading [now] where no token is cached
    or the cached [expiresAt] is at most [now + 60000], [getGraphToken] and
    fabric-api's [getAccessToken] send exactly one request, the token
    exchange; on a 2xx answer carrying a token and an [expires_in] of more
    than 60 seconds they return the new token and replace the cache by
    (token, [now + expires_in * 1000]), and an immediate second call returns
    the same token without sending anything. *)
Theorem C2_refresh :
  refresh_property (fun e => 60 < e)
    EmailManager.getGraphToken EmailManager.tokenRequest /\
  refresh_property (fun e => 60 < e)
    FabricApi.getAccessToken FabricApi.tokenRequest.
Proof.
  split.
  - refresh_proof EmailManager.getGraphToken EmailManager.receiveToken
      EmailManager.tokenRequest.
  - refresh_proof FabricApi.getAccessToken FabricApi.receiveToken
      FabricApi.tokenRequest.
Qed.

Lemma C2_refresh_witness :
  stale (tokenCache Doubles.empty) 0 /\
  EmailManager.getGraphToken Doubles.hourly 0 Doubles.empty
  = (Return (JStr "T1"),
     snd (EmailManager.getGraphToken Doubles.hourly 0 Doubles.empty)) /\
  tokenCache (snd (EmailManager.getGraphToken Doubles.hourly 0 Doubles.empty))
  = {| token := JStr "T1"; expiresAt := Int (0 + 3600 * 1000) |} /\
  EmailManager.getGraphToken Doubles.hourly 0
    (snd (EmailManager.getGraphToken Doubles.hourly 0 Doubles.empty))
  = (Return (JStr "T1"),
     snd (EmailManager.getGraphToken Doubles.hourly 0 Doubles.empty)).
Proof.
  assert (Hs : stale (tokenCache Doubles.empty) 0) by (left; reflexivity).
  split; [exact Hs |].
  assert (Hlife : 60 < 3600) by lia.
  refine ((fun P => conj (proj1 P) (conj (proj1 (proj2 P)) (proj2 (proj2 P) Hlife)))
            (proj2 (proj1 C2_refresh Doubles.hourly 0 Doubles.empty Hs)
               (Doubles.respond 200 "OK" "T1 for 3600 s")
               [("access_token", JStr "T1"); ("expires_in", JNum (Int 3600))]
               "T1" 3600 _ _ _ _ _ _)).
  - reflexivity.
  - reflexivity.
  - reflexivity.
  - reflexivity.
  - discriminate.
  - reflexivity.
Defined.

(** C2 as stated fails.  The identity provider answers 200 with token T1
    and [expires_in] 60 to a call at [now = 0] on an empty cache: the cache
    becomes (T1, 60000), and since 60000 > 0 + 60000 is false the immediate
    second call sends a second exchange request. *)
Lemma C2_refresh_counterexample :
  ~ (refresh_property (fun _ => True)
       EmailManager.getGraphToken EmailManager.tokenRequest /\
     refresh_property (fun _ => True)
       FabricApi.getAccessToken FabricApi.tokenRequest).
Proof.
  intros [HE _].
  assert (Hs : stale (tokenCache Doubles.empty) 0) by (left; reflexivity).
  destruct (HE Doubles.short_lived 0 Doubles.empty Hs) as [_ Hrest].
  assert (Hne : "T1" <> "") by discriminate.
  destruct (Hrest (Doubles.respond 200 "OK" "T1 for 60 s")
              [("access_token", JStr "T1"); ("expires_in", JNum (Int 60))]
              "T1" 60 eq_refl eq_refl eq_refl eq_refl Hne eq_refl)
    as [_ [_ Hagain]].
  specialize (Hagain I). vm_compute in Hagain. discriminate Hagain.
Qed.

(** The two throwing wrappers share this proof. *)
Ltac wrapper_proof wrapper :=
  intros H now st method path body tok st1 r Htok Hnet Hok;
  unfold wrapper; run;
  rewrite Htok; cbv beta iota zeta; rewrite Hnet; cbv beta iota zeta; rewrite Hok;
  reflexivity.

(** C3 (amended).  On a non-2xx answer of the target API, [graphRequest]
    and [fabricApiRequest] throw an [Error] whose message carries the HTTP
    status and the raw response text; the body is not handed to
    [JSON.parse], whatever the parser of the host would make of it.
    [fabric_api_call] does not fail on the status: whenever the body is
    empty or parses, it returns the status, the status text and the parsed
    body (null for an empty one) as its result. *)
Theorem C3_api_error :
  (forall H now st method path body tok st1 r,
     EmailManager.getGraphToken H now st = (Return tok, st1) ->
     network H (sent st1) (EmailManager.options H tok method path body)
       = Responded r ->
     ok r = false ->
     EmailManager.graphRequest H now method path body st
     = (Throw (Error ("Graph API error: " ++ Number_toString (Int (status r))
                      ++ " - " ++ text r)),
        after_sending st1 (EmailManager.options H tok method path body))) /\
  (forall H now st method path body tok st1 r,
     ReportBuilder.getAccessToken H now st = (Return tok, st1) ->
     network H (sent st1) (ReportBuilder.options H tok method path body)
       = Responded r ->
     ok r = false ->
     ReportBuilder.fabricApiRequest H now method path body st
     = (Throw (Error ("Fabric API error: " ++ Number_toString (Int (status r))
                      ++ " - " ++ text r)),
        after_sending st1 (ReportBuilder.options H tok method path body))) /\
  (forall H now st m path body tok st1 r data,
     FabricApi.getAccessToken H now st = (Return tok, st1) ->
     network H (sent st1) (FabricApi.options H tok (toUpperCase m) path body)
       = Responded r ->
     (if String.eqb (text r) "" then data = JNull
      else JSON_parse H (text r) = Some data) ->
     FabricApi.fabric_api_call H now (JStr m) path body st
     = (Return (JSON_stringify H
                  (JObj [("status", JNum (Int (status r)));
                         ("statusText", JStr (statusText r));
                         ("data", data)]) 2),
        after_sending st1 (FabricApi.options H tok (toUpperCase m) path body))).
Proof.
  split; [| split].
  - wrapper_proof EmailManager.graphRequest.
  - wrapper_proof ReportBuilder.fabricApiRequest.
  - intros H now st m path body tok st1 r data Htok Hnet Hdata.
    unfold FabricApi.fabric_api_call, FabricApi.toUpperCase_value. run.
    rewrite Htok; cbv beta iota zeta. rewrite Hnet; cbv beta iota zeta.
    destruct (String.eqb (text r) ""); cbn [negb].
    + subst data. reflexivity.
    + rewrite Hdata. reflexivity.
Qed.

Lemma C3_api_error_witness :
  EmailManager.getGraphToken Doubles.not_found_text 0 (Doubles.caching "T1" 3600000)
  = (Return (JStr "T1"), Doubles.caching "T1" 3600000) /\
  EmailManager.graphRequest Doubles.not_found_text 0 "GET" "/foo" JUndefined
    (Doubles.caching "T1" 3600000)
  = (Throw (Error ("Graph API error: " ++ Number_toString (Int 404)
                   ++ " - " ++ "not found")),
     after_sending (Doubles.caching "T1" 3600000)
       (EmailManager.options Doubles.not_found_text (JStr "T1") "GET" "/foo"
          JUndefined)).
Proof.
  split; [reflexivity |].
  apply (proj1 C3_api_error Doubles.not_found_text 0 (Doubles.caching "T1" 3600000)
           "GET" "/foo" JUndefined (JStr "T1") (Doubles.caching "T1" 3600000)
           (Doubles.respond 404 "Not Found" "not found")).
  - reflexivity.
  - reflexivity.
  - reflexivity.
Defined.

(** C3 as stated fails on [fabric_api_call]: with a token in the cache and a
    target API answering 404 with an empty body, the call returns its result
    object; nothing is thrown. *)
Lemma C3_api_error_counterexample : ~ api_error_as_stated.
Proof.
  intros [_ [_ Hcall]].
  destruct (Hcall Doubles.not_found 0 (Doubles.caching "T1" 3600000)
              "get" (JStr "/workspaces") JUndefined (JStr "T1")
              (Doubles.caching "T1" 3600000)
              (Doubles.respond 404 "Not Found" "") eq_refl eq_refl eq_refl)
    as [label Hthrown].
  vm_compute in Hthrown. discriminate Hthrown.
Qed.

(** C7.  Empty-body tolerance: when the target API answers 2xx with a
    zero-length body, [graphRequest] and [fabricApiRequest] return [null];
    [JSON.parse] is not consulted, so no parse error can arise. *)
Theorem C7_empty_body :
  (forall H now st method path body tok st1 r,
     EmailManager.getGraphToken H now st = (Return tok, st1) ->
     network H (sent st1) (EmailManager.options H tok method path body)
       = Responded r ->
     ok r = true ->
     text r = "" ->
     EmailManager.graphRequest H now method path body st
     = (Return JNull,
        after_sending st1 (EmailManager.options H tok method path body))) /\
  (forall H now st method path body tok st1 r,
     ReportBuilder.getAccessToken H now st = (Return tok, st1) ->
     network H (sent st1) (ReportBuilder.options H tok method path body)
       = Responded r ->
     ok r = true ->
     text r = "" ->
     ReportBuilder.fabricApiRequest H now method path body st
     = (Return JNull,
        after_sending st1 (ReportBuilder.options H tok method path body))).
Proof.
  split.
  - intros H now st method path body tok st1 r Htok Hnet Hok Htext.
    unfold EmailManager.graphRequest. run.
    rewrite Htok; cbv beta iota zeta. rewrite Hnet; cbv beta iota zeta.
    rewrite Hok, Htext. reflexivity.
  - intros H now st method path body tok st1 r Htok Hnet Hok Htext.
    unfold ReportBuilder.fabricApiRequest. run.
    rewrite Htok; cbv beta iota zeta. rewrite Hnet; cbv beta iota zeta.
    rewrite Hok, Htext. reflexivity.
Qed.

Lemma C7_empty_body_witness :
  JSON_parse Doubles.no_content "" = None /\
  EmailManager.graphRequest Doubles.no_content 0 "PATCH" "/users/u/messages/m1"
    (JObj [("isRead", JBool true)]) (Doubles.caching "T1" 3600000)
  = (Return JNull,
     after_sending (Doubles.caching "T1" 3600000)
       (EmailManager.options Doubles.no_content (JStr "T1") "PATCH"
          "/users/u/messages/m1" (JObj [("isRead", JBool true)]))).
Proof.
  split; [reflexivity |].
  apply (proj1 C7_empty_body Doubles.no_content 0 (Doubles.caching "T1" 3600000)
           "PATCH" "/users/u/messages/m1" (JObj [("isRead", JBool true)])
           (JStr "T1") (Doubles.caching "T1" 3600000)
           (Doubles.respond 204 "No Content" "")).
  - reflexivity.
  - reflexivity.
  - reflexivity.
  - reflexivity.
Defined.

Ltac failure_proof getToken receiveToken :=
  intros H now r st Hok;
  assert (Hrecv : exists e, receiveToken H now r st = (Throw e, st))
    by (unfold receiveToken; run; rewrite Hok; eexists; reflexivity);
  split; [exact Hrecv |];
  destruct Hrecv as [ex Hrecv]; rewrite Hrecv; cbn [snd];
  intros tok e now' Hcache Htruthy Htime;
  unfold getToken; run; rewrite Hcache; cbn [token expiresAt Number_gt];
  rewrite Htruthy;
  replace (now' + 60000 <? e) with true by (symmetry; apply Z.ltb_lt; lia);
  reflexivity.

(** C4 (amended).  Non-destructive failure: when a token exchange is
    answered non-2xx, the rest of [getGraphToken] (and of fabric-api's
    [getAccessToken]) throws and leaves the state, hence the cached token
    and its expiry, exactly as it was; a later call made more than 60000 ms
    before that token's [expiresAt] still returns it, with no request. *)
Theorem C4_failure_preserves_token :
  failure_preserves (fun now' e => now' + 60000 < e)
    EmailManager.getGraphToken EmailManager.receiveToken /\
  failure_preserves (fun now' e => now' + 60000 < e)
    FabricApi.getAccessToken FabricApi.receiveToken.
Proof.
  split.
  - failure_proof EmailManager.getGraphToken EmailManager.receiveToken.
  - failure_proof FabricApi.getAccessToken FabricApi.receiveToken.
Qed.

Lemma C4_failure_preserves_token_witness :
  ok Doubles.denial = false /\
  EmailManager.getGraphToken Doubles.unauthorized 1000
    (snd (EmailManager.receiveToken Doubles.unauthorized 0 Doubles.denial
            (Doubles.caching "T1" 3600000)))
  = (Return (JStr "T1"), Doubles.caching "T1" 3600000).
Proof.
  split; [reflexivity |].
  apply (proj2 (proj1 C4_failure_preserves_token Doubles.unauthorized 0
                  Doubles.denial (Doubles.caching "T1" 3600000) eq_refl)
           (JStr "T1") 3600000 1000).
  - reflexivity.
  - reflexivity.
  - lia.
Defined.

(** C4 as stated fails.  The cache holds T0 expiring at 100000; an exchange
    begun at 50000 is answered 401 and the cache is untouched.  A later call
    at 50001, before the expiry at 100000 but inside the 60000 ms margin,
    does not return T0: it starts another exchange, which is refused too. *)
Lemma C4_failure_preserves_token_counterexample :
  ~ (failure_preserves (fun now' e => now' < e)
       EmailManager.getGraphToken EmailManager.receiveToken /\
     failure_preserves (fun now' e => now' < e)
       FabricApi.getAccessToken FabricApi.receiveToken).
Proof.
  intros [HE _].
  destruct (HE Doubles.unauthorized 50000 Doubles.denial
              (Doubles.caching "T0" 100000) eq_refl) as [_ Hlater].
  assert (Htime : 50001 < 100000) by lia.
  specialize (Hlater (JStr "T0") 100000 50001 eq_refl eq_refl Htime).
  vm_compute in Hlater. discriminate Hlater.
Qed.

Lemma length_append (a b : string) :
  String.length (a ++ b) = (String.length a + String.length b)%nat.
Proof.
  induction a as [| c a IH]; simpl; [reflexivity | rewrite IH; reflexivity].
Qed.

(** The sibling copies put the body of the refusal into the message. *)
Lemma token_error_carries_body (H : Host) (now : Z) (r : Response) (st : State) :
  ok r = false ->
  fails_carrying (fst (EmailManager.receiveToken H now r st)) r /\
  fails_carrying (fst (ReportBuilder.receiveToken H now r st)) r.
Proof.
  intros Hok. unfold EmailManager.receiveToken, ReportBuilder.receiveToken.
  run. rewrite Hok. cbn [negb fst]. split; eexists; reflexivity.
Qed.

(** fabric-api's rest of the call never looks at the body of a refusal. *)
Lemma fabric_api_token_error_ignores_body (H : Host) (now : Z)
    (r r' : Response) (st : State) :
  ok r = false -> status r' = status r ->
  FabricApi.receiveToken H now r' st = FabricApi.receiveToken H now r st.
Proof.
  intros Hok Hstatus. unfold FabricApi.receiveToken, ok in *.
  rewrite Hstatus, Hok. reflexivity.
Qed.

(** C5 (the defect).  fabric-api's [getAccessToken], on an empty cache and an
    identity provider answering 401 with an explanatory body, throws
    [Error "Token error: 401"]: the status is there, the body text is not. *)
Theorem C5_fabric_api_token_error_drops_body :
  FabricApi.getAccessToken Doubles.unauthorized 0 Doubles.empty
  = (Throw (Error "Token error: 401"),
     after_sending Doubles.empty (FabricApi.tokenRequest Doubles.unauthorized)) /\
  ~ fails_carrying
      (fst (FabricApi.getAccessToken Doubles.unauthorized 0 Doubles.empty))
      Doubles.denial.
Proof.
  split; [reflexivity |].
  intros [label Hmsg]. vm_compute in Hmsg.
  injection Hmsg as Hmsg. apply (f_equal String.length) in Hmsg.
  rewrite length_append in Hmsg. simpl in Hmsg. lia.
Qed.

(** The sibling copy in powerbi-report-builder checks the credentials: with
    a stale cache and one of the three variables absent or empty it throws
    before anything is sent. *)
Lemma report_builder_checks_credentials (H : Host) (now : Z) (st : State) :
  fresh (tokenCache st) now = false ->
  truthy (env H "AZURE_TENANT_ID") = false \/
  truthy (env H "AZURE_CLIENT_ID") = false \/
  truthy (env H "AZURE_CLIENT_SECRET") = false ->
  ReportBuilder.getAccessToken H now st
  = (Throw (Error "Missing Azure AD credentials. Set AZURE_TENANT_ID, AZURE_CLIENT_ID, AZURE_CLIENT_SECRET in .env"),
     st).
Proof.
  intros Hfresh Hmissing. unfold fresh in Hfresh.
  unfold ReportBuilder.getAccessToken. run. rewrite Hfresh.
  destruct Hmissing as [Hm | [Hm | Hm]]; rewrite Hm; cbn [negb orb];
    rewrite ?orb_true_r; reflexivity.
Qed.

(** C6 (the defect).  [getGraphToken] and fabric-api's [getAccessToken] never
    test the credentials: from the empty cache they send the exchange
    request in every environment, and with no variable set the request goes
    to the tenant named "undefined". *)
Theorem C6_missing_credentials_reach_network :
  (forall H now,
     sent (snd (EmailManager.getGraphToken H now Doubles.empty))
     = [EmailManager.tokenRequest H]) /\
  (forall H now,
     sent (snd (FabricApi.getAccessToken H now Doubles.empty))
     = [FabricApi.tokenRequest H]) /\
  url (EmailManager.tokenRequest Doubles.unauthorized)
  = "https://login.microsoftonline.com/undefined/oauth2/v2.0/token" /\
  EmailManager.getGraphToken Doubles.unauthorized 0 Doubles.empty
  = (Throw (Error "Graph token error: 401 - AADSTS7000215: Invalid client secret provided."),
     after_sending Doubles.empty (EmailManager.tokenRequest Doubles.unauthorized)) /\
  ReportBuilder.getAccessToken Doubles.unauthorized 0 Doubles.empty
  = (Throw (Error "Missing Azure AD credentials. Set AZURE_TENANT_ID, AZURE_CLIENT_ID, AZURE_CLIENT_SECRET in .env"),
     Doubles.empty).
Proof.
  repeat split.
  - intros H now. unfold EmailManager.getGraphToken. run. cbn [Doubles.empty
      tokenCache initialCache token truthy andb sent app].
    destruct (network H [] _) as [r | ex]; [| reflexivity].
    unfold EmailManager.receiveToken. run.
    destruct (ok r); cbn [negb]; [| reflexivity].
    destruct (JSON_parse H (text r)) as [[| | b | n | s | items | fields] |];
      reflexivity.
  - intros H now. unfold FabricApi.getAccessToken. run. cbn [Doubles.empty
      tokenCache initialCache token truthy andb sent app].
    destruct (network H [] _) as [r | ex]; [| reflexivity].
    unfold FabricApi.receiveToken. run.
    destruct (ok r); cbn [negb]; [| reflexivity].
    destruct (JSON_parse H (text r)) as [[| | b | n | s | items | fields] |];
      reflexivity.
Qed.

(** C8.  In [read_email] the mark-as-read PATCH is fire-and-forget: once the
    GET has produced the message and [formatted] has been built, the call
    returns the serialised [formatted] whatever the completion [c] of the
    PATCH is, a thrown error included. *)
Theorem C8_mark_as_read_is_ignored (H : Host) (now1 now2 : Z)
    (message_id msg f : JSValue) (st st1 st2 : State) (c : Completion JSValue) :
  EmailManager.graphRequest H now1 "GET"
    ("/users/" ++ ToString (EmailManager.EMAIL_USER H) ++ "/messages/"
     ++ ToString message_id
     ++ "?$select=id,subject,from,toRecipients,ccRecipients,receivedDateTime,isRead,body,hasAttachments")
    JUndefined st = (Return msg, st1) ->
  EmailManager.formatted msg st1 = (Return f, st1) ->
  EmailManager.mark_as_read H now2 message_id st1 = (c, st2) ->
  EmailManager.read_email H now1 now2 message_id st
  = (Return (JSON_stringify H f 2), st2).
Proof.
  intros Hget Hfmt Hmark. unfold EmailManager.read_email. run.
  rewrite Hget; cbv beta iota zeta. rewrite Hfmt; cbv beta iota zeta.
  rewrite Hmark. reflexivity.
Qed.

Lemma C8_mark_as_read_is_ignored_witness :
  (exists st2,
     EmailManager.mark_as_read Doubles.flaky 2000 (JStr "m1")
       (after_sending (Doubles.caching "T1" 3600000)
          (EmailManager.options Doubles.flaky (JStr "T1") "GET"
             "/users/fabio@sebit.cz/messages/m1?$select=id,subject,from,toRecipients,ccRecipients,receivedDateTime,isRead,body,hasAttachments"
             JUndefined))
     = (Throw (Error "Graph API error: 500 - busy"), st2)) /\
  fst (EmailManager.read_email Doubles.flaky 1000 2000 (JStr "m1")
         (Doubles.caching "T1" 3600000))
  = Return (JSON_stringify Doubles.flaky
              (JObj [("id", JStr "m1"); ("subject", JStr "Hi");
                     ("from", JUndefined); ("to", JArr []); ("cc", JArr []);
                     ("date", JUndefined); ("body", JStr "");
                     ("bodyHtml", JUndefined); ("hasAttachments", JUndefined)])
              2).
Proof.
  split; [eexists; reflexivity |].
  rewrite (C8_mark_as_read_is_ignored Doubles.flaky 1000 2000 (JStr "m1")
             (JObj [("id", JStr "m1"); ("subject", JStr "Hi")])
             (JObj [("id", JStr "m1"); ("subject", JStr "Hi");
                    ("from", JUndefined); ("to", JArr []); ("cc", JArr []);
                    ("date", JUndefined); ("body", JStr "");
                    ("bodyHtml", JUndefined); ("hasAttachments", JUndefined)])
             (Doubles.caching "T1" 3600000)
             _ _ _ eq_refl eq_refl eq_refl).
  reflexivity.
Defined.

(** ** The cache under interleaved refreshes *)

Section InterleavingFacts.

Variable H : Host.
Variable request : Request.
Variable receive : Z -> Response -> M JSValue.

(** What the rest of a call may do to the cache. *)
Hypothesis receive_cache :
  forall now r st,
    tokenCache (snd (receive now r st)) = tokenCache st \/
    exists data,
      ok r = true /\ JSON_parse H (text r) = Some data /\
      tokenCache (snd (receive now r st)) = issuedCache H now data.

Lemma step_replaces_as_unit (sys sys' : System) :
  step request receive sys sys' -> replaced_as_unit H sys sys'.
Proof.
  intros Hstep. destruct Hstep as [now sys _ | now sys _ | now r sys _ | now sys _];
    try (left; reflexivity).
  destruct (receive_cache now r (shared sys)) as [Hsame | [data [Hok [Hp Hc]]]].
  - left. exact Hsame.
  - right. exists now, r, data. cbn [delivered shared].
    repeat split; try assumption. left. reflexivity.
Qed.

Lemma step_keeps_delivered (sys sys' : System) :
  step request receive sys sys' -> incl (delivered sys) (delivered sys').
Proof.
  intros Hstep. destruct Hstep; cbn [delivered];
    auto using incl_refl, incl_tl.
Qed.

Lemma step_preserves_paired (sys sys' : System) :
  paired H sys -> step request receive sys sys' -> paired H sys'.
Proof.
  intros Hpaired Hstep.
  destruct (step_replaces_as_unit sys sys' Hstep) as [Hsame | Hnew].
  - destruct Hpaired as [Hinit | [now [r [data [Hin [Hok [Hp Hc]]]]]]].
    + left. rewrite Hsame. exact Hinit.
    + right. exists now, r, data. repeat split; try assumption.
      * apply (step_keeps_delivered sys sys' Hstep). exact Hin.
      * rewrite Hsame. exact Hc.
  - right. exact Hnew.
Qed.

Lemma reachable_paired (sys : System) :
  reachable request receive sys -> paired H sys.
Proof.
  induction 1 as [| sys sys' _ IH Hstep].
  - left. reflexivity.
  - exact (step_preserves_paired sys sys' IH Hstep).
Qed.

End InterleavingFacts.

Ltac receive_cache_proof H receiveToken :=
  intros now r st; unfold receiveToken; run;
  destruct (ok r) eqn:Hok; cbn [negb]; [| left; reflexivity];
  destruct (JSON_parse H (text r)) as [data |] eqn:Hparse; [| left; reflexivity];
  destruct data; try (left; reflexivity);
  right; eexists; repeat split; reflexivity.

Lemma email_manager_receive_cache (H : Host) :
  forall now r st,
    tokenCache (snd (EmailManager.receiveToken H now r st)) = tokenCache st \/
    exists data,
      ok r = true /\ JSON_parse H (text r) = Some data /\
      tokenCache (snd (EmailManager.receiveToken H now r st)) = issuedCache H now data.
Proof. receive_cache_proof H EmailManager.receiveToken. Qed.

Lemma fabric_api_receive_cache (H : Host) :
  forall now r st,
    tokenCache (snd (FabricApi.receiveToken H now r st)) = tokenCache st \/
    exists data,
      ok r = true /\ JSON_parse H (text r) = Some data /\
      tokenCache (snd (FabricApi.receiveToken H now r st)) = issuedCache H now data.
Proof. receive_cache_proof H FabricApi.receiveToken. Qed.

(** A call of [getGraphToken] that runs alone is a run of the interleaved
    system: a hit, or a miss followed at once by its answer. *)
Lemma sequential_call_is_a_run (H : Host) (now : Z) (sys : System) :
  reachable (EmailManager.tokenRequest H) (EmailManager.receiveToken H) sys ->
  exists sys',
    reachable (EmailManager.tokenRequest H) (EmailManager.receiveToken H) sys' /\
    shared sys' = snd (EmailManager.getGraphToken H now (shared sys)).
Proof.
  intros Hreach.
  destruct (fresh (tokenCache (shared sys)) now) eqn:Hfresh.
  - exists sys. split; [exact Hreach |].
    unfold EmailManager.getGraphToken. run. unfold fresh in Hfresh.
    rewrite Hfresh. reflexivity.
  - pose proof (reachable_step _ _ _ _ Hreach (step_miss _ _ now sys Hfresh))
      as Hmiss.
    unfold EmailManager.getGraphToken. run. unfold fresh in Hfresh.
    rewrite Hfresh.
    destruct (network H (sent (shared sys)) (EmailManager.tokenRequest H))
      as [r | ex].
    + eexists. split.
      * eapply reachable_step; [exact Hmiss |].
        apply (step_settle _ _ now r). left. reflexivity.
      * reflexivity.
    + eexists. split.
      * eapply reachable_step; [exact Hmiss |].
        apply (step_reject _ _ now). left. reflexivity.
      * reflexivity.
Qed.

(** C9.  Replace-as-unit: in every state the interleaved calls of
    [getGraphToken] (and of fabric-api's [getAccessToken]) can reach, the
    cache is the initial pair or a token and an expiry computed from one and
    the same delivered exchange response; and every step from such a state
    leaves the cache alone or replaces both fields from one response. *)
Theorem C9_replace_as_unit (H : Host) (sys : System) :
  (reachable (EmailManager.tokenRequest H) (EmailManager.receiveToken H) sys ->
   paired H sys /\
   forall sys',
     step (EmailManager.tokenRequest H) (EmailManager.receiveToken H) sys sys' ->
     replaced_as_unit H sys sys') /\
  (reachable (FabricApi.tokenRequest H) (FabricApi.receiveToken H) sys ->
   paired H sys /\
   forall sys',
     step (FabricApi.tokenRequest H) (FabricApi.receiveToken H) sys sys' ->
     replaced_as_unit H sys sys').
Proof.
  split; intros Hreach; split.
  - exact (reachable_paired H _ _ (email_manager_receive_cache H) sys Hreach).
  - intros sys'. apply step_replaces_as_unit. apply email_manager_receive_cache.
  - exact (reachable_paired H _ _ (fabric_api_receive_cache H) sys Hreach).
  - intros sys'. apply step_replaces_as_unit. apply fabric_api_receive_cache.
Qed.

Lemma C9_replace_as_unit_witness :
  reachable (EmailManager.tokenRequest Doubles.hourly)
    (EmailManager.receiveToken Doubles.hourly)
    {| shared := {| tokenCache := {| token := JStr "T1"; expiresAt := Int 3600000 |};
                    sent := [EmailManager.tokenRequest Doubles.hourly] |};
       inflight := [];
       delivered := [(0, Doubles.respond 200 "OK" "T1 for 3600 s")] |} /\
  paired Doubles.hourly
    {| shared := {| tokenCache := {| token := JStr "T1"; expiresAt := Int 3600000 |};
                    sent := [EmailManager.tokenRequest Doubles.hourly] |};
       inflight := [];
       delivered := [(0, Doubles.respond 200 "OK" "T1 for 3600 s")] |}.
Proof.
  assert (Hreach :
    reachable (EmailManager.tokenRequest Doubles.hourly)
      (EmailManager.receiveToken Doubles.hourly)
      {| shared := {| tokenCache := {| token := JStr "T1"; expiresAt := Int 3600000 |};
                      sent := [EmailManager.tokenRequest Doubles.hourly] |};
         inflight := [];
         delivered := [(0, Doubles.respond 200 "OK" "T1 for 3600 s")] |}).
  { eapply reachable_step.
    - eapply reachable_step; [apply reachable_init |].
      apply (step_miss _ _ 0 initialSystem). reflexivity.
    - apply (step_settle (EmailManager.tokenRequest Doubles.hourly)
               (EmailManager.receiveToken Doubles.hourly) 0
               (Doubles.respond 200 "OK" "T1 for 3600 s")).
      left. reflexivity. }
  split; [exact Hreach |].
  exact (proj1 (proj1 (C9_replace_as_unit Doubles.hourly _) Hreach)).
Defined.

(** ** Computations that send nothing *)

Lemma pure_ret {A : Type} (a : A) : pure (ret a).
Proof. intros st. reflexivity. Qed.

Lemma pure_throw {A : Type} (e : Exn) : pure (@throw A e).
Proof. intros st. reflexivity. Qed.

Lemma pure_bind {A B : Type} (m : M A) (k : A -> M B) :
  pure m -> (forall a, pure (k a)) -> pure (bind m k).
Proof.
  intros Hm Hk st. unfold bind. specialize (Hm st).
  destruct (m st) as [[a | e] st']; cbn [snd] in *; subst st'.
  - apply Hk.
  - reflexivity.
Qed.

Lemma pure_get (v : JSValue) (name : string) : pure (get v name).
Proof. destruct v; intros st; reflexivity. Qed.

Lemma pure_get_opt (v : JSValue) (name : string) : pure (get_opt v name).
Proof. destruct v; intros st; reflexivity. Qed.

Lemma pure_stripHtml_value (v : JSValue) : pure (EmailManager.stripHtml_value v).
Proof. destruct v; intros st; reflexivity. Qed.

Lemma pure_mapM {A B : Type} (f : A -> M B) (l : list A) :
  (forall x, pure (f x)) -> pure (mapM f l).
Proof.
  intros Hf. induction l as [| x rest IH]; cbn [mapM].
  - apply pure_ret.
  - apply pure_bind; [apply Hf | intros y].
    apply pure_bind; [exact IH | intros ys]. apply pure_ret.
Qed.

Lemma pure_map_array (f : JSValue -> M JSValue) (v : JSValue) :
  (forall x, pure (f x)) -> pure (map_array f v).
Proof.
  intros Hf. unfold map_array.
  destruct (JS_or v (JArr [])); try apply pure_throw.
  apply pure_bind; [apply pure_mapM; exact Hf | intros ys; apply pure_ret].
Qed.

Create HintDb pure_db.
#[local] Hint Resolve pure_ret pure_throw pure_get pure_get_opt
  pure_stripHtml_value : pure_db.

Ltac purity :=
  repeat first
    [ solve [auto with pure_db]
    | apply pure_bind; [| intro]
    | match goal with
      | |- pure (if ?b then _ else _) => destruct b
      end ].

Lemma pure_formatMessage (msg : JSValue) : pure (EmailManager.formatMessage msg).
Proof. unfold EmailManager.formatMessage. purity. Qed.

(** Past its [graphRequest], [read_inbox] sends nothing. *)
Lemma read_inbox_requests (H : Host) (now : Z) (count unread_only : JSValue)
    (st : State) :
  sent (snd (EmailManager.read_inbox H now count unread_only st))
  = sent (snd (EmailManager.graphRequest H now "GET"
                 (EmailManager.read_inbox_path H count unread_only)
                 JUndefined st)).
Proof.
  unfold EmailManager.read_inbox. unfold bind at 1.
  destruct (EmailManager.graphRequest H now "GET" _ JUndefined st)
    as [[result | e] st1]; [| reflexivity].
  cbn [snd]. f_equal.
  assert (Hp : pure (value <- get result "value" ;;
                     messages <- map_array EmailManager.formatMessage value ;;
                     ret (JSON_stringify H messages 2))).
  { purity. apply pure_map_array. apply pure_formatMessage. }
  apply Hp.
Qed.

(** Past its [graphRequest], [search_emails] sends nothing. *)
Lemma search_emails_requests (H : Host) (now : Z) (query count : JSValue)
    (st : State) :
  sent (snd (EmailManager.search_emails H now query count st))
  = sent (snd (EmailManager.graphRequest H now "GET"
                 (EmailManager.search_emails_path H query count)
                 JUndefined st)).
Proof.
  unfold EmailManager.search_emails. unfold bind at 1.
  destruct (EmailManager.graphRequest H now "GET" _ JUndefined st)
    as [[result | e] st1]; [| reflexivity].
  cbn [snd]. f_equal.
  assert (Hp : pure (value <- get result "value" ;;
                     messages <- map_array EmailManager.formatMessage value ;;
                     ret (JSON_stringify H messages 2))).
  { purity. apply pure_map_array. apply pure_formatMessage. }
  apply Hp.
Qed.

(** C10.  [read_inbox] and [search_emails] send one Graph request each,
    whose [$top] parameter is [top = Math.min(count || 10, 50)]: whenever
    [top] is a number it is at most 50, a non-zero numeric [count] gives the
    smaller of [count] and 50, and a missing, null or zero [count] gives
    10. *)
Theorem C10_top_at_most_50 (H : Host) :
  (forall count n, EmailManager.top H count = Int n -> n <= 50) /\
  (forall n, n <> 0 ->
     EmailManager.top H (JNum (Int n)) = Int (Z.min n 50)) /\
  EmailManager.top H JUndefined = Int 10 /\
  EmailManager.top H JNull = Int 10 /\
  EmailManager.top H (JNum (Int 0)) = Int 10 /\
  (forall now count unread_only st,
     sent (snd (EmailManager.read_inbox H now count unread_only st))
     = sent (snd (EmailManager.graphRequest H now "GET"
                    ("/users/" ++ ToString (EmailManager.EMAIL_USER H)
                     ++ "/messages?$top="
                     ++ Number_toString (EmailManager.top H count)
                     ++ "&$orderby=receivedDateTime desc&$select=id,subject,from,receivedDateTime,isRead,bodyPreview,hasAttachments"
                     ++ (if truthy unread_only then "&$filter=isRead eq false"
                         else ""))
                    JUndefined st))) /\
  (forall now query count st,
     sent (snd (EmailManager.search_emails H now query count st))
     = sent (snd (EmailManager.graphRequest H now "GET"
                    ("/users/" ++ ToString (EmailManager.EMAIL_USER H)
                     ++ "/messages?$search="
                     ++ dquote ++ encodeURIComponent H (ToString query) ++ dquote
                     ++ "&$top=" ++ Number_toString (EmailManager.top H count)
                     ++ "&$select=id,subject,from,receivedDateTime,isRead,bodyPreview,hasAttachments")
                    JUndefined st))).
Proof.
  repeat split.
  - intros count n. unfold EmailManager.top, Math_min.
    destruct (ToNumber H (JS_or count (JNum (Int 10)))) as [z |];
      [| discriminate].
    intros Heq. injection Heq as <-. apply Z.le_min_r.
  - intros n Hn. unfold EmailManager.top, JS_or. cbn [truthy].
    destruct (Z.eqb_spec n 0); [contradiction | reflexivity].
  - intros now count unread_only st. apply read_inbox_requests.
  - intros now query count st. apply search_emails_requests.
Qed.

Lemma C10_top_at_most_50_witness :
  EmailManager.top Doubles.down (JNum (Int 100)) = Int 50 /\
  50 <= 50 /\
  EmailManager.top Doubles.down (JNum (Int 7)) = Int (Z.min 7 50).
Proof.
  assert (Hcap : EmailManager.top Doubles.down (JNum (Int 100)) = Int 50)
    by reflexivity.
  split; [exact Hcap |]. split.
  - exact (proj1 (C10_top_at_most_50 Doubles.down) (JNum (Int 100)) 50 Hcap).
  - apply (proj1 (proj2 (C10_top_at_most_50 Doubles.down))). lia.
Defined.

(** ** What [stripHtml] hands back *)

Lemma tag_match_other (c : ascii) (s : string) :
  c <> "<"%char -> tag_match (String c s) = None.
Proof.
  intros Hc. destruct c as [[] [] [] [] [] [] [] []]; try reflexivity.
  contradiction Hc. reflexivity.
Qed.

Lemma tag_match_open (t : string) :
  tag_match (String "<" t) = None <->
  (exists r, t = String ">" r) \/ after_char ">" t = None.
Proof.
  destruct t as [| d r]; cbn [tag_match].
  - split; [right; reflexivity | reflexivity].
  - destruct (Ascii.eqb_spec d ">") as [-> | Hd].
    + split; [left; eexists; reflexivity | reflexivity].
    + split.
      * intros Hnone. right. exact Hnone.
      * intros [[r' Heq] | Hnone]; [| exact Hnone].
        injection Heq as Hdd _. contradiction.
Qed.

Lemma after_char_tail (c a : ascii) (s : string) :
  after_char c (String a s) = None -> after_char c s = None.
Proof.
  cbn [after_char]. destruct (Ascii.eqb a c); [discriminate | trivial].
Qed.

(** A replacement by a space brings no [>] in. *)
Lemma replace_all_no_gt (m : string -> option string) (s : string) :
  forall skip,
    after_char ">" s = None ->
    after_char ">" (replace_all m " " skip s) = None.
Proof.
  induction s as [| c s IH]; intros skip Hno; [reflexivity |].
  pose proof (after_char_tail _ _ _ Hno) as Htail.
  cbn [replace_all]. destruct skip as [| k]; [| apply IH; exact Htail].
  destruct (m (String c s)) as [rest |].
  - cbn [append after_char Ascii.eqb]. apply IH. exact Htail.
  - cbn [after_char] in *. destruct (Ascii.eqb c ">"); [discriminate |].
    apply IH. exact Hno.
Qed.

Lemma tag_match_open_none (out : string) :
  after_char ">" out = None -> tag_match (String "<" out) = None.
Proof. intros Hno. apply tag_match_open. right. exact Hno. Qed.

Lemma replace_tags_tag_free (s : string) :
  forall skip, tag_free (replace_all tag_match " " skip s).
Proof.
  unfold tag_free.
  induction s as [| c s IH]; intros skip; [exact I |].
  cbn [replace_all]. destruct skip as [| k]; [| apply IH].
  destruct (tag_match (String c s)) as [rest |] eqn:Hm.
  - cbn [append]. split; [| apply IH].
    apply tag_match_other. discriminate.
  - split; [| apply IH].
    destruct (Ascii.eqb_spec c "<") as [-> | Hc];
      [| apply tag_match_other; exact Hc].
    apply tag_match_open in Hm. destruct Hm as [[r ->] | Hno].
    + cbn [replace_all tag_match]. reflexivity.
    + apply tag_match_open_none. apply replace_all_no_gt. exact Hno.
Qed.

Lemma collapse_spaces_no_gt (s : string) :
  forall b,
    after_char ">" s = None -> after_char ">" (collapse_spaces b s) = None.
Proof.
  induction s as [| c s IH]; intros b Hno; [reflexivity |].
  pose proof (after_char_tail _ _ _ Hno) as Htail.
  cbn [collapse_spaces]. destruct (is_space c).
  - destruct b; [apply IH; exact Htail |].
    cbn [after_char Ascii.eqb]. apply IH. exact Htail.
  - cbn [after_char] in *. destruct (Ascii.eqb c ">"); [discriminate |].
    apply IH. exact Hno.
Qed.

Lemma collapse_spaces_tag_free (s : string) :
  forall b, tag_free s -> tag_free (collapse_spaces b s).
Proof.
  unfold tag_free.
  induction s as [| c s IH]; intros b Hfree; [exact I |].
  destruct Hfree as [Hm Hfree]. cbn [collapse_spaces].
  destruct (is_space c) eqn:Hsp.
  - destruct b; [apply IH; exact Hfree |].
    split; [apply tag_match_other; discriminate | apply IH; exact Hfree].
  - split; [| apply IH; exact Hfree].
    destruct (Ascii.eqb_spec c "<") as [-> | Hc];
      [| apply tag_match_other; exact Hc].
    apply tag_match_open in Hm. destruct Hm as [[r ->] | Hno].
    + reflexivity.
    + apply tag_match_open_none. apply collapse_spaces_no_gt. exact Hno.
Qed.

Lemma trim_start_tag_free (s : string) : tag_free s -> tag_free (trim_start s).
Proof.
  unfold tag_free. induction s as [| c s IH]; intros Hfree; [exact I |].
  cbn [trim_start]. destruct (is_space c); [| exact Hfree].
  apply IH. apply Hfree.
Qed.

Lemma trim_end_no_gt (s : string) :
  after_char ">" s = None -> after_char ">" (trim_end s) = None.
Proof.
  induction s as [| c s IH]; intros Hno; [reflexivity |].
  pose proof (after_char_tail _ _ _ Hno) as Htail.
  cbn [trim_end]. cbn [after_char] in Hno.
  destruct (Ascii.eqb c ">") eqn:Hc; [discriminate |].
  specialize (IH Htail).
  destruct (trim_end s) as [| d r].
  - destruct (is_space c); [reflexivity |].
    cbn [after_char]. rewrite Hc. reflexivity.
  - cbn [after_char]. rewrite Hc. exact IH.
Qed.

Lemma trim_end_tag_free (s : string) : tag_free s -> tag_free (trim_end s).
Proof.
  unfold tag_free. induction s as [| c s IH]; intros Hfree; [exact I |].
  destruct Hfree as [Hm Hfree]. specialize (IH Hfree).
  cbn [trim_end]. destruct (trim_end s) as [| d r] eqn:Hte.
  - destruct (is_space c); [exact I |].
    split; [| exact I].
    destruct (Ascii.eqb_spec c "<") as [-> | Hc];
      [reflexivity | apply tag_match_other; exact Hc].
  - split; [| exact IH].
    destruct (Ascii.eqb_spec c "<") as [-> | Hc];
      [| apply tag_match_other; exact Hc].
    apply tag_match_open in Hm. destruct Hm as [[r0 ->] | Hno].
    + cbn [trim_end is_space] in Hte.
      apply tag_match_open. left.
      destruct (trim_end r0); injection Hte as <- _; eexists; reflexivity.
    + rewrite <- Hte. apply tag_match_open_none. apply trim_end_no_gt.
      exact Hno.
Qed.

Lemma trim_tag_free (s : string) : tag_free s -> tag_free (trim s).
Proof.
  intros Hfree. unfold trim. apply trim_end_tag_free, trim_start_tag_free.
  exact Hfree.
Qed.

Lemma strip_pipeline_tag_free (s : string) :
  tag_free (trim (collapse_spaces false (replace_all tag_match " " O s))).
Proof.
  apply trim_tag_free, collapse_spaces_tag_free, replace_tags_tag_free.
Qed.

(** X1.  No tag is left in what [stripHtml] returns: the expression
    [/<[^>]+>/] matches at no position of the result. *)
Theorem stripHtml_tag_free (html : string) :
  tag_free (EmailManager.stripHtml html).
Proof.
  unfold EmailManager.stripHtml. apply strip_pipeline_tag_free.
Qed.

Lemma collapse_spaces_single_spaced (s : string) :
  forall b, single_spaced b (collapse_spaces b s) = true.
Proof.
  induction s as [| c s IH]; intros b; [reflexivity |].
  cbn [collapse_spaces]. destruct (is_space c) eqn:Hsp.
  - destruct b; [apply IH |].
    cbn [single_spaced is_space]. apply IH.
  - cbn [single_spaced]. rewrite Hsp. apply IH.
Qed.

Lemma single_spaced_weaken (s : string) :
  single_spaced true s = true -> single_spaced false s = true.
Proof.
  destruct s as [| c s]; [trivial |]. cbn [single_spaced].
  destruct (is_space c); [| trivial].
  rewrite andb_false_r. discriminate.
Qed.

Lemma trim_start_single_spaced (s : string) :
  forall b, single_spaced b s = true -> single_spaced false (trim_start s) = true.
Proof.
  induction s as [| c s IH]; intros b Hs; [reflexivity |].
  cbn [trim_start]. cbn [single_spaced] in Hs.
  destruct (is_space c) eqn:Hsp.
  - apply (IH true). apply andb_true_iff in Hs. apply Hs.
  - cbn [single_spaced]. rewrite Hsp. exact Hs.
Qed.

Lemma trim_end_single_spaced (s : string) :
  forall b, single_spaced b s = true -> single_spaced b (trim_end s) = true.
Proof.
  induction s as [| c s IH]; intros b Hs; [reflexivity |].
  cbn [trim_end]. cbn [single_spaced] in Hs.
  destruct (is_space c) eqn:Hsp.
  - apply andb_true_iff in Hs. destruct Hs as [Hhead Htail].
    specialize (IH true Htail).
    destruct (trim_end s) as [| d r]; [reflexivity |].
    cbn [single_spaced] in *. rewrite Hsp, Hhead. exact IH.
  - specialize (IH false Hs).
    destruct (trim_end s) as [| d r]; cbn [single_spaced] in *; rewrite Hsp;
      [reflexivity | exact IH].
Qed.

Lemma trim_start_starts (s : string) : starts_with_space (trim_start s) = false.
Proof.
  induction s as [| c s IH]; [reflexivity |].
  cbn [trim_start]. destruct (is_space c) eqn:Hsp; [exact IH | exact Hsp].
Qed.

Lemma trim_end_starts (s : string) :
  starts_with_space s = false -> starts_with_space (trim_end s) = false.
Proof.
  destruct s as [| c s]; [trivial |]. cbn [starts_with_space trim_end].
  intros Hsp. rewrite Hsp. destruct (trim_end s); exact Hsp.
Qed.

Lemma trim_end_ends (s : string) : ends_with_space (trim_end s) = false.
Proof.
  induction s as [| c s IH]; [reflexivity |].
  cbn [trim_end]. destruct (trim_end s) as [| d r].
  - destruct (is_space c) eqn:Hsp; [reflexivity | exact Hsp].
  - exact IH.
Qed.

Lemma trim_normalized (s : string) (b : bool) :
  single_spaced b s = true -> normalized (trim s).
Proof.
  intros Hs. unfold normalized, trim. repeat split.
  - apply trim_end_starts, trim_start_starts.
  - apply trim_end_ends.
  - apply trim_end_single_spaced. apply (trim_start_single_spaced s b Hs).
Qed.

Lemma strip_pipeline_normalized (s : string) :
  normalized (trim (collapse_spaces false s)).
Proof.
  apply (trim_normalized _ false). apply collapse_spaces_single_spaced.
Qed.

(** X2.  What [stripHtml] returns is a sequence of words separated by
    single spaces: it neither starts nor ends with whitespace, its only
    whitespace characters are spaces, and no two of them are adjacent. *)
Theorem stripHtml_normalized (html : string) :
  normalized (EmailManager.stripHtml html).
Proof.
  unfold EmailManager.stripHtml. apply strip_pipeline_normalized.
Qed.

Lemma replace_all_unmatched (m : string -> option string) (by_ s : string) :
  unmatched m s -> replace_all m by_ O s = s.
Proof.
  induction s as [| c s IH]; intros Hun; [reflexivity |].
  destruct Hun as [Hm Hun]. cbn [replace_all]. rewrite Hm.
  rewrite (IH Hun). reflexivity.
Qed.

Lemma lower_lt (c : ascii) : lower c = "<"%char -> c = "<"%char.
Proof.
  destruct c as [[] [] [] [] [] [] [] []]; vm_compute; intros Heq;
    try discriminate Heq; reflexivity.
Qed.

(** Where the style expression matches, the tag expression matches too. *)
Lemma style_match_tag_match (s : string) :
  style_match s <> None -> tag_match s <> None.
Proof.
  unfold style_match.
  destruct s as [| c0 [| c1 [| c2 [| c3 [| c4 [| c5 r1]]]]]];
    cbn [strip_prefix_ci];
    repeat match goal with
           | |- context [if Ascii.eqb ?a (lower ?b) then _ else _] =>
               let E := fresh "E" in
               destruct (Ascii.eqb_spec a (lower b)) as [E | E];
               [symmetry in E | congruence]
           end;
    try congruence.
  apply lower_lt in E. subst c0.
  destruct (after_char ">" r1) as [r2 |] eqn:Hgt; [| congruence].
  intros _. cbn [tag_match].
  assert (Hne : forall c x, lower c = x -> x <> ">"%char -> Ascii.eqb c ">" = false).
  { intros c x Hl Hx. destruct (Ascii.eqb_spec c ">") as [-> |]; [| reflexivity].
    contradiction Hx. rewrite <- Hl. reflexivity. }
  rewrite (Hne c1 _ E0) by discriminate.
  cbn [after_char].
  rewrite (Hne c1 _ E0), (Hne c2 _ E1), (Hne c3 _ E2), (Hne c4 _ E3),
    (Hne c5 _ E4) by discriminate.
  rewrite Hgt. discriminate.
Qed.

Lemma tag_free_style_free (s : string) : tag_free s -> unmatched style_match s.
Proof.
  unfold tag_free. induction s as [| c s IH]; intros Hfree; [exact I |].
  destruct Hfree as [Hm Hfree]. split; [| apply IH; exact Hfree].
  destruct (style_match (String c s)) eqn:Hs; [| reflexivity].
  exfalso. apply (style_match_tag_match (String c s)); [congruence | exact Hm].
Qed.

Lemma collapse_spaces_fixed (s : string) :
  forall b, single_spaced b s = true -> collapse_spaces b s = s.
Proof.
  induction s as [| c s IH]; intros b Hs; [reflexivity |].
  cbn [collapse_spaces]. cbn [single_spaced] in Hs.
  destruct (is_space c) eqn:Hsp.
  - apply andb_true_iff in Hs. destruct Hs as [Hhead Htail].
    apply andb_true_iff in Hhead. destruct Hhead as [Hc Hb].
    destruct b; [discriminate |].
    apply Ascii.eqb_eq in Hc. subst c. rewrite (IH true Htail). reflexivity.
  - rewrite (IH false Hs). reflexivity.
Qed.

Lemma trim_end_fixed (s : string) :
  ends_with_space s = false -> trim_end s = s.
Proof.
  induction s as [| c s IH]; intros Hs; [reflexivity |].
  cbn [trim_end]. destruct s as [| d s'].
  - cbn [ends_with_space] in Hs. cbn [trim_end]. rewrite Hs. reflexivity.
  - rewrite (IH Hs). reflexivity.
Qed.

Lemma trim_fixed (s : string) :
  starts_with_space s = false -> ends_with_space s = false -> trim s = s.
Proof.
  intros Hstart Hend. unfold trim.
  destruct s as [| c s]; [reflexivity |].
  cbn [trim_start]. cbn [starts_with_space] in Hstart. rewrite Hstart.
  apply trim_end_fixed. exact Hend.
Qed.

(** X3.  [stripHtml] is idempotent: stripping a stripped text changes
    nothing. *)
Theorem stripHtml_idempotent (html : string) :
  EmailManager.stripHtml (EmailManager.stripHtml html)
  = EmailManager.stripHtml html.
Proof.
  assert (Hfree : tag_free (EmailManager.stripHtml html))
    by (unfold EmailManager.stripHtml; apply strip_pipeline_tag_free).
  assert (Hnorm : normalized (EmailManager.stripHtml html))
    by (unfold EmailManager.stripHtml; apply strip_pipeline_normalized).
  set (out := EmailManager.stripHtml html) in *.
  unfold EmailManager.stripHtml at 1.
  rewrite (replace_all_unmatched style_match "" out (tag_free_style_free out Hfree)).
  rewrite (replace_all_unmatched tag_match " " out Hfree).
  rewrite (collapse_spaces_fixed out false (proj2 (proj2 Hnorm))).
  apply trim_fixed; apply Hnorm.
Qed.

(** ** [parseRecipients] *)

Lemma split_comma_no_comma (s : string) :
  Forall (fun p => has_char "," p = false) (split_comma s).
Proof.
  induction s as [| c s IH]; cbn [split_comma].
  - constructor; [reflexivity | constructor].
  - destruct (Ascii.eqb c ",") eqn:Hc.
    + constructor; [reflexivity | exact IH].
    + destruct (split_comma s) as [| h t].
      * constructor; [| constructor]. cbn [has_char]. rewrite Hc. reflexivity.
      * inversion IH as [| ? ? Hh Ht]; subst. constructor; [| exact Ht].
        cbn [has_char]. rewrite Hc. exact Hh.
Qed.

Lemma trim_start_has_char (c : ascii) (s : string) :
  has_char c s = false -> has_char c (trim_start s) = false.
Proof.
  induction s as [| a s IH]; intros Hno; [reflexivity |].
  cbn [trim_start]. destruct (is_space a); [| exact Hno].
  apply IH. cbn [has_char] in Hno. apply orb_false_iff in Hno. apply Hno.
Qed.

Lemma trim_end_has_char (c : ascii) (s : string) :
  has_char c s = false -> has_char c (trim_end s) = false.
Proof.
  induction s as [| a s IH]; intros Hno; [reflexivity |].
  cbn [has_char] in Hno. apply orb_false_iff in Hno. destruct Hno as [Ha Hs].
  specialize (IH Hs). cbn [trim_end].
  destruct (trim_end s) as [| d r].
  - destruct (is_space a); [reflexivity |].
    cbn [has_char]. rewrite Ha. reflexivity.
  - cbn [has_char] in *. rewrite Ha. exact IH.
Qed.

(** X4.  Every address that [parseRecipients] keeps is non-empty, holds no
    comma and has no whitespace at either end, whatever string it is given. *)
Theorem parseRecipients_addresses_clean (str : string) (v : JSValue) :
  In v (EmailManager.parseRecipients str) ->
  exists a,
    v = JObj [("emailAddress", JObj [("address", JStr a)])] /\ clean_address a.
Proof.
  unfold EmailManager.parseRecipients. intros Hv.
  apply in_map_iff in Hv. destruct Hv as [a [<- Hin]].
  exists a. split; [reflexivity |].
  unfold EmailManager.addresses in Hin.
  apply filter_In in Hin. destruct Hin as [Hin Hne].
  apply in_map_iff in Hin. destruct Hin as [p [<- Hp]].
  pose proof (split_comma_no_comma str) as Hall.
  rewrite Forall_forall in Hall. specialize (Hall p Hp). cbv beta in Hall.
  repeat split.
  - intros Hempty. rewrite Hempty in Hne. discriminate Hne.
  - unfold trim. apply trim_end_has_char, trim_start_has_char. exact Hall.
  - unfold trim. apply trim_end_starts, trim_start_starts.
  - unfold trim. apply trim_end_ends.
Qed.

Lemma parseRecipients_addresses_clean_witness :
  EmailManager.parseRecipients " a@x.cz ,, b@x.cz,"
  = [JObj [("emailAddress", JObj [("address", JStr "a@x.cz")])];
     JObj [("emailAddress", JObj [("address", JStr "b@x.cz")])]] /\
  exists a,
    JObj [("emailAddress", JObj [("address", JStr "b@x.cz")])]
    = JObj [("emailAddress", JObj [("address", JStr a)])] /\ clean_address a.
Proof.
  split; [reflexivity |].
  apply (parseRecipients_addresses_clean " a@x.cz ,, b@x.cz,").
  right. left. reflexivity.
Defined.







(** ** How the requests of a call add up *)

Lemma sends_at_most_pure {A : Type} (m : M A) : pure m -> sends_at_most 0 m.
Proof.
  intros Hp st. exists []. rewrite (Hp st), app_nil_r.
  split; [reflexivity | cbn; lia].
Qed.

Lemma sends_at_most_bind {A B : Type} (a b : nat) (m : M A) (k : A -> M B) :
  sends_at_most a m -> (forall x, sends_at_most b (k x)) ->
  sends_at_most (a + b) (bind m k).
Proof.
  intros Hm Hk st. unfold bind. destruct (Hm st) as [e1 [He1 Hl1]].
  destruct (m st) as [[x | ex] st1]; cbn [snd] in *.
  - destruct (Hk x st1) as [e2 [He2 Hl2]]. exists (e1 ++ e2)%list.
    rewrite He2, He1, app_assoc, length_app. split; [reflexivity | lia].
  - exists e1. split; [exact He1 | lia].
Qed.

Lemma sends_at_most_weaken {A : Type} (a b : nat) (m : M A) :
  (a <= b)%nat -> sends_at_most a m -> sends_at_most b m.
Proof.
  intros Hle Hm st. destruct (Hm st) as [e [He Hl]]. exists e.
  split; [exact He | lia].
Qed.

Lemma sends_at_most_fetch (H : Host) (req : Request) :
  sends_at_most 1 (fetch H req).
Proof.
  intros st. exists [req]. unfold fetch.
  destruct (network H (sent st) req); split; reflexivity || (cbn; lia).
Qed.

Lemma sends_at_most_catch {A : Type} (n : nat) (m : M A) :
  sends_at_most n m -> sends_at_most n (catch_ignore m).
Proof.
  intros Hm st. unfold catch_ignore. destruct (Hm st) as [e [He Hl]].
  destruct (m st) as [c st1]. exists e. split; [exact He | exact Hl].
Qed.

Lemma pure_parse (H : Host) (s : string) : pure (parse H s).
Proof. unfold parse. destruct (JSON_parse H s); intros st; reflexivity. Qed.

Lemma email_receiveToken_sends_nothing (H : Host) (now : Z) (r : Response) :
  sends_at_most 0 (EmailManager.receiveToken H now r).
Proof.
  intros st. exists []. rewrite app_nil_r. split; [| cbn; lia].
  unfold EmailManager.receiveToken. run.
  destruct (ok r); cbn [negb]; [| reflexivity].
  destruct (JSON_parse H (text r)) as [[| | b | n | s | items | fields] |];
    reflexivity.
Qed.

Lemma getGraphToken_sends_at_most_1 (H : Host) (now : Z) :
  sends_at_most 1 (EmailManager.getGraphToken H now).
Proof.
  unfold EmailManager.getGraphToken.
  apply (sends_at_most_bind 0 1); [apply sends_at_most_pure; intros st; reflexivity |].
  intros cache.
  destruct (truthy (token cache) && Number_gt (expiresAt cache) (Int (now + 60000))).
  - apply (sends_at_most_weaken 0); [lia |]. apply sends_at_most_pure, pure_ret.
  - apply (sends_at_most_bind 1 0); [apply sends_at_most_fetch |].
    intros r. apply email_receiveToken_sends_nothing.
Qed.

Lemma graphRequest_sends_at_most_2 (H : Host) (now : Z) (method path : string)
    (body : JSValue) :
  sends_at_most 2 (EmailManager.graphRequest H now method path body).
Proof.
  unfold EmailManager.graphRequest.
  apply (sends_at_most_bind 1 1); [apply getGraphToken_sends_at_most_1 |].
  intros tok.
  apply (sends_at_most_bind 1 0); [apply sends_at_most_fetch |].
  intros r. apply sends_at_most_pure.
  destruct (negb (ok r)); [apply pure_throw |].
  destruct (negb (String.eqb (text r) "")); [apply pure_parse | apply pure_ret].
Qed.

Lemma pure_recipient_address (r : JSValue) : pure (EmailManager.recipient_address r).
Proof. unfold EmailManager.recipient_address. purity. Qed.

Lemma pure_formatted (msg : JSValue) : pure (EmailManager.formatted msg).
Proof.
  unfold EmailManager.formatted.
  repeat first
    [ solve [auto with pure_db]
    | apply pure_map_array; apply pure_recipient_address
    | apply pure_bind; [| intro] ].
Qed.

(** X6.  No retries: one call of [graphRequest] hands at most two requests
    to [fetch] (the token exchange and the API call), [send_email] and
    [reply_to_email] likewise, and [read_email] at most four; none of them
    erases a request already made. *)
Theorem email_manager_request_budget (H : Host) (now now' : Z)
    (method path : string) (a b c d : JSValue) :
  sends_at_most 2 (EmailManager.graphRequest H now method path a) /\
  sends_at_most 2 (EmailManager.send_email H now a b c d) /\
  sends_at_most 2 (EmailManager.reply_to_email H now a b c) /\
  sends_at_most 4 (EmailManager.read_email H now now' a).
Proof.
  split; [apply graphRequest_sends_at_most_2 |]. split; [| split].
  - unfold EmailManager.send_email.
    apply (sends_at_most_bind 0 2).
    { apply sends_at_most_pure. destruct c; intros st; reflexivity. }
    intros html. apply (sends_at_most_bind 0 2).
    { apply sends_at_most_pure. destruct a; intros st; reflexivity. }
    intros tos. apply (sends_at_most_bind 0 2).
    { apply sends_at_most_pure. destruct (truthy d); [| apply pure_ret].
      apply pure_bind; [destruct d; intros st; reflexivity | intro; apply pure_ret]. }
    intros ccs. apply (sends_at_most_bind 2 0);
      [apply graphRequest_sends_at_most_2 |].
    intros _. apply sends_at_most_pure, pure_ret.
  - unfold EmailManager.reply_to_email.
    apply (sends_at_most_bind 2 0); [apply graphRequest_sends_at_most_2 |].
    intros _. apply sends_at_most_pure, pure_ret.
  - unfold EmailManager.read_email.
    apply (sends_at_most_bind 2 2); [apply graphRequest_sends_at_most_2 |].
    intros msg. apply (sends_at_most_bind 0 2);
      [apply sends_at_most_pure, pure_formatted |].
    intros f. apply (sends_at_most_bind 2 0).
    { apply sends_at_most_catch. unfold EmailManager.mark_as_read.
      apply graphRequest_sends_at_most_2. }
    intros _. apply sends_at_most_pure, pure_ret.
Qed.

(** ** [graphRequest] and the handlers built on it *)

Lemma graphRequest_inv (H : Host) (now : Z) (method path : string)
    (body v : JSValue) (st st' : State) :
  EmailManager.graphRequest H now method path body st = (Return v, st') ->
  exists tok st1 r,
    EmailManager.getGraphToken H now st = (Return tok, st1) /\
    network H (sent st1) (EmailManager.options H tok method path body)
      = Responded r /\
    ok r = true /\ body_value H r v /\
    st' = after_sending st1 (EmailManager.options H tok method path body).
Proof.
  unfold EmailManager.graphRequest. run.
  destruct (EmailManager.getGraphToken H now st) as [[tok | e] st1] eqn:Htok;
    [| discriminate].
  destruct (network H (sent st1) _) as [r | e] eqn:Hnet; [| discriminate].
  destruct (ok r) eqn:Hok; cbn [negb]; [| discriminate].
  intros Hres. exists tok, st1, r. unfold body_value.
  destruct (String.eqb (text r) ""); cbn [negb] in Hres.
  - injection Hres as <- <-. repeat split; try reflexivity; assumption.
  - destruct (JSON_parse H (text r)) as [v' |]; [| discriminate].
    injection Hres as <- <-. repeat split; try reflexivity; assumption.
Qed.

(** X7.  [graphRequest] returns a value only when a token was obtained and
    the Graph API answered 2xx to the one request sent with that token; the
    value is [null] for an empty body and the parsed body otherwise. *)
Theorem graphRequest_returns_only_on_2xx (H : Host) (now : Z)
    (method path : string) (body v : JSValue) (st st' : State) :
  EmailManager.graphRequest H now method path body st = (Return v, st') ->
  exists tok st1 r,
    EmailManager.getGraphToken H now st = (Return tok, st1) /\
    network H (sent st1) (EmailManager.options H tok method path body)
      = Responded r /\
    ok r = true /\ body_value H r v /\
    st' = after_sending st1 (EmailManager.options H tok method path body).
Proof. apply graphRequest_inv. Qed.

Lemma graphRequest_returns_only_on_2xx_witness :
  EmailManager.graphRequest Doubles.no_content 0 "POST" "/users/u/sendMail"
    (JObj []) (Doubles.caching "T1" 3600000)
  = (Return JNull,
     after_sending (Doubles.caching "T1" 3600000)
       (EmailManager.options Doubles.no_content (JStr "T1") "POST"
          "/users/u/sendMail" (JObj []))) /\
  exists tok st1 r,
    EmailManager.getGraphToken Doubles.no_content 0 (Doubles.caching "T1" 3600000)
      = (Return tok, st1) /\
    network Doubles.no_content (sent st1)
      (EmailManager.options Doubles.no_content tok "POST" "/users/u/sendMail"
         (JObj [])) = Responded r /\
    ok r = true /\ body_value Doubles.no_content r JNull /\
    after_sending (Doubles.caching "T1" 3600000)
      (EmailManager.options Doubles.no_content (JStr "T1") "POST"
         "/users/u/sendMail" (JObj []))
    = after_sending st1
        (EmailManager.options Doubles.no_content tok "POST" "/users/u/sendMail"
           (JObj [])).
Proof.
  split; [reflexivity |].
  apply (graphRequest_returns_only_on_2xx Doubles.no_content 0 "POST"
           "/users/u/sendMail" (JObj []) JNull (Doubles.caching "T1" 3600000)).
  reflexivity.
Defined.

(** X8.  When the token cannot be obtained, [graphRequest] fails with the
    very error of [getGraphToken] and the Graph API is not contacted: the
    state is the one [getGraphToken] left. *)
Theorem graphRequest_token_failure (H : Host) (now : Z) (method path : string)
    (body : JSValue) (e : Exn) (st st1 : State) :
  EmailManager.getGraphToken H now st = (Throw e, st1) ->
  EmailManager.graphRequest H now method path body st = (Throw e, st1).
Proof.
  intros Htok. unfold EmailManager.graphRequest. run. rewrite Htok. reflexivity.
Qed.

Lemma graphRequest_token_failure_witness :
  EmailManager.getGraphToken Doubles.unauthorized 0 Doubles.empty
  = (Throw (Error "Graph token error: 401 - AADSTS7000215: Invalid client secret provided."),
     after_sending Doubles.empty (EmailManager.tokenRequest Doubles.unauthorized)) /\
  EmailManager.graphRequest Doubles.unauthorized 0 "GET" "/users/u/messages"
    JUndefined Doubles.empty
  = (Throw (Error "Graph token error: 401 - AADSTS7000215: Invalid client secret provided."),
     after_sending Doubles.empty (EmailManager.tokenRequest Doubles.unauthorized)).
Proof.
  split; [reflexivity |].
  apply (graphRequest_token_failure Doubles.unauthorized 0 "GET"
           "/users/u/messages" JUndefined). reflexivity.
Defined.

(** X9.  The answer of the Graph API never reaches the token cache: after
    [graphRequest] the cache is what [getGraphToken] alone would have left,
    whether the API call succeeded, failed or was rejected. *)
Theorem graphRequest_cache_is_getGraphToken_cache (H : Host) (now : Z)
    (method path : string) (body : JSValue) (st : State) :
  tokenCache (snd (EmailManager.graphRequest H now method path body st))
  = tokenCache (snd (EmailManager.getGraphToken H now st)).
Proof.
  unfold EmailManager.graphRequest. run.
  destruct (EmailManager.getGraphToken H now st) as [[tok | e] st1];
    [| reflexivity].
  cbn [snd]. destruct (network H (sent st1) _) as [r | e]; [| reflexivity].
  destruct (ok r); cbn [negb]; [| reflexivity].
  destruct (String.eqb (text r) ""); cbn [negb]; [reflexivity |].
  destruct (JSON_parse H (text r)); reflexivity.
Qed.

(** X10.  [send_email] reports "sent" only when the Graph API answered 2xx
    to the sendMail POST; the report then repeats [to] and [subject] as
    given and carries [cc], or [null] when [cc] is falsy. *)
Theorem send_email_reports_sent_only_on_2xx (H : Host) (now : Z)
    (to subject body cc : JSValue) (s : string) (st st' : State) :
  EmailManager.send_email H now to subject body cc st = (Return s, st') ->
  (exists tok st1 payload r,
     EmailManager.getGraphToken H now st = (Return tok, st1) /\
     network H (sent st1)
       (EmailManager.options H tok "POST"
          ("/users/" ++ ToString (EmailManager.EMAIL_USER H) ++ "/sendMail")
          payload) = Responded r /\
     ok r = true) /\
  s = JSON_stringify H
        (JObj [("status", JStr "sent"); ("to", to); ("subject", subject);
               ("cc", JS_or cc JNull)]) 0.
Proof.
  unfold EmailManager.send_email. unfold bind at 1.
  destruct (EmailManager.includes_lt body st) as [[html | e] s0] eqn:Hinc;
    [| discriminate].
  assert (s0 = st) as ->.
  { destruct body; cbn in Hinc; try discriminate; injection Hinc as _ <-;
      reflexivity. }
  unfold bind at 1.
  destruct (EmailManager.parseRecipients_value to st) as [[tos | e] s1] eqn:Hto;
    [| discriminate].
  assert (s1 = st) as ->.
  { destruct to; cbn in Hto; try discriminate; injection Hto as _ <-;
      reflexivity. }
  unfold bind at 1.
  match goal with
  | |- context [match ?m st with _ => _ end] =>
      destruct (m st) as [[ccs | e] s2] eqn:Hcc; [| discriminate]
  end.
  assert (s2 = st) as ->.
  { destruct (truthy cc).
    - destruct cc; cbn in Hcc; try discriminate; injection Hcc as _ <-;
        reflexivity.
    - cbn in Hcc. injection Hcc as _ <-. reflexivity. }
  unfold bind at 1.
  destruct (EmailManager.graphRequest H now "POST" _ _ st) as [[v | e] s3] eqn:Hreq;
    [| discriminate].
  intros Hres. cbn in Hres. injection Hres as <- <-.
  apply graphRequest_inv in Hreq.
  destruct Hreq as [tok [st1 [r [Htok [Hnet [Hok _]]]]]].
  split; [| reflexivity].
  exists tok, st1, (EmailManager.sendMail_payload subject body html tos ccs), r.
  repeat split; assumption.
Qed.

Lemma send_email_reports_sent_only_on_2xx_witness :
  (exists tok st1 payload r,
     EmailManager.getGraphToken Doubles.no_content 0 (Doubles.caching "T1" 3600000)
       = (Return tok, st1) /\
     network Doubles.no_content (sent st1)
       (EmailManager.options Doubles.no_content tok "POST"
          ("/users/" ++ ToString (EmailManager.EMAIL_USER Doubles.no_content)
           ++ "/sendMail")
          payload) = Responded r /\
     ok r = true) /\
  JSON_stringify Doubles.no_content
    (JObj [("status", JStr "sent"); ("to", JStr "a@x.cz, b@x.cz");
           ("subject", JStr "Hi"); ("cc", JNull)]) 0
  = JSON_stringify Doubles.no_content
      (JObj [("status", JStr "sent"); ("to", JStr "a@x.cz, b@x.cz");
             ("subject", JStr "Hi"); ("cc", JS_or JUndefined JNull)]) 0.
Proof.
  eapply (send_email_reports_sent_only_on_2xx Doubles.no_content 0
            (JStr "a@x.cz, b@x.cz") (JStr "Hi") (JStr "<p>Hello</p>")
            JUndefined _ (Doubles.caching "T1" 3600000)).
  reflexivity.
Defined.

(** ** Edge cases of the token exchange *)

Ltac throw_keeps_cache getToken receiveToken :=
  intros H now st e st';
  unfold getToken; run;
  try (destruct (negb (truthy (env H "AZURE_TENANT_ID"))
                 || negb (truthy (env H "AZURE_CLIENT_ID"))
                 || negb (truthy (env H "AZURE_CLIENT_SECRET")));
       [destruct (truthy (token (tokenCache st))
                  && Number_gt (expiresAt (tokenCache st)) (Int (now + 60000)));
        intros Hres; injection Hres as _ <-; reflexivity |]);
  destruct (truthy (token (tokenCache st))
            && Number_gt (expiresAt (tokenCache st)) (Int (now + 60000)));
  [discriminate |];
  destruct (network H (sent st) _) as [r | ex];
  [| intros Hres; injection Hres as _ <-; reflexivity];
  unfold receiveToken; run;
  destruct (ok r); cbn [negb];
  [| intros Hres; injection Hres as _ <-; reflexivity];
  destruct (JSON_parse H (text r)) as [[| | b | n | s | items | fields] |];
  intros Hres; try discriminate Hres; injection Hres as _ <-; reflexivity.

(** X11.  Whenever a token acquisition throws, for whatever reason (a
    refusal, a body that does not parse, a [null] body, a rejected [fetch],
    missing credentials), the cache is exactly what it was before the
    call. *)
Theorem token_failure_keeps_cache :
  (forall H now st e st',
     EmailManager.getGraphToken H now st = (Throw e, st') ->
     tokenCache st' = tokenCache st) /\
  (forall H now st e st',
     FabricApi.getAccessToken H now st = (Throw e, st') ->
     tokenCache st' = tokenCache st) /\
  (forall H now st e st',
     ReportBuilder.getAccessToken H now st = (Throw e, st') ->
     tokenCache st' = tokenCache st) /\
  (forall H now st e st',
     WorkspaceManager.getAccessToken H now st = (Throw e, st') ->
     tokenCache st' = tokenCache st).
Proof.
  split; [| split; [| split]].
  - throw_keeps_cache EmailManager.getGraphToken EmailManager.receiveToken.
  - throw_keeps_cache FabricApi.getAccessToken FabricApi.receiveToken.
  - throw_keeps_cache ReportBuilder.getAccessToken ReportBuilder.receiveToken.
  - throw_keeps_cache WorkspaceManager.getAccessToken
      WorkspaceManager.receiveToken.
Qed.

Lemma token_failure_keeps_cache_witness :
  EmailManager.getGraphToken Doubles.garbled 200000 (Doubles.caching "T0" 100000)
  = (Throw SyntaxError,
     after_sending (Doubles.caching "T0" 100000)
       (EmailManager.tokenRequest Doubles.garbled)) /\
  tokenCache (after_sending (Doubles.caching "T0" 100000)
                (EmailManager.tokenRequest Doubles.garbled))
  = tokenCache (Doubles.caching "T0" 100000).
Proof.
  split; [reflexivity |].
  apply (proj1 token_failure_keeps_cache Doubles.garbled 200000
           (Doubles.caching "T0" 100000) SyntaxError).
  reflexivity.
Defined.

Ltac first_refresh getToken receiveToken tokenRequest cache :=
  match goal with
  | Hstale : stale _ _, Hnet : network _ _ _ = Responded _,
    Hok : ok _ = true, Hparse : JSON_parse _ _ = Some _ |- _ =>
      let Hs := fresh "Hs" in
      pose proof (stale_not_fresh _ _ Hstale) as Hs; unfold fresh in Hs;
      unfold getToken; run; rewrite Hs, Hnet;
      unfold receiveToken; run; rewrite Hok; cbn [negb]; rewrite Hparse;
      cbn [prop]
  end.

(** Whatever the network answers, the call ends having sent one request. *)
Ltac settle_any receiveToken :=
  match goal with
  | |- context [network ?H ?l ?q] => destruct (network H l q); [| reflexivity]
  end;
  unfold receiveToken; run;
  match goal with
  | |- context [ok ?x] => destruct (ok x); cbn [negb]; [| reflexivity]
  end;
  match goal with
  | |- context [JSON_parse ?H ?t] =>
      destruct (JSON_parse H t) as [[| | | | | |] |]
  end;
  reflexivity.

Ltac unusable_proof getToken receiveToken tokenRequest :=
  intros H now st r fields Hstale Hnet Hok Hparse Hexp;
  assert (Hfirst :
    getToken H now st
    = (Return (lookup fields "access_token"),
       {| tokenCache := {| token := lookup fields "access_token"; expiresAt := NaN |};
          sent := (sent st ++ [tokenRequest H])%list |}));
  [ first_refresh getToken receiveToken tokenRequest tt;
    rewrite Hexp; reflexivity
  | rewrite Hfirst; cbn [snd tokenCache expiresAt];
    split; [reflexivity | split; [reflexivity |]];
    intros now'; unfold getToken; run; cbn [tokenCache token expiresAt sent Number_gt];
    rewrite andb_false_r;
    settle_any receiveToken ].

(** X12.  Missing [expires_in]: [getGraphToken] and the [getAccessToken]
    copies of fabric-api and the workspace manager still return the token of
    a 2xx answer whose JSON object has no [expires_in], but they store the
    expiry [NaN], which is never fresh: every later call, at whatever time,
    sends a new exchange. *)
Theorem token_without_lifetime_is_never_reused :
  unusable_without_lifetime EmailManager.getGraphToken EmailManager.tokenRequest /\
  unusable_without_lifetime FabricApi.getAccessToken FabricApi.tokenRequest /\
  unusable_without_lifetime WorkspaceManager.getAccessToken
    WorkspaceManager.tokenRequest.
Proof.
  split; [| split].
  - unusable_proof EmailManager.getGraphToken EmailManager.receiveToken
      EmailManager.tokenRequest.
  - unusable_proof FabricApi.getAccessToken FabricApi.receiveToken
      FabricApi.tokenRequest.
  - unusable_proof WorkspaceManager.getAccessToken WorkspaceManager.receiveToken
      WorkspaceManager.tokenRequest.
Qed.

Lemma token_without_lifetime_is_never_reused_witness :
  stale (tokenCache Doubles.empty) 0 /\
  expiresAt (tokenCache (snd (EmailManager.getGraphToken Doubles.no_lifetime 0
                                Doubles.empty))) = NaN /\
  sent (snd (EmailManager.getGraphToken Doubles.no_lifetime 1
               (snd (EmailManager.getGraphToken Doubles.no_lifetime 0
                       Doubles.empty))))
  = (sent (snd (EmailManager.getGraphToken Doubles.no_lifetime 0 Doubles.empty))
     ++ [EmailManager.tokenRequest Doubles.no_lifetime])%list.
Proof.
  assert (Hs : stale (tokenCache Doubles.empty) 0) by (left; reflexivity).
  split; [exact Hs |].
  destruct (proj1 token_without_lifetime_is_never_reused Doubles.no_lifetime 0
              Doubles.empty (Doubles.respond 200 "OK" "T1 without lifetime")
              [("access_token", JStr "T1")] Hs eq_refl eq_refl eq_refl eq_refl)
    as [_ [Hnan Hlater]].
  split; [exact Hnan | exact (Hlater 1)].
Defined.

Ltac window_proof getToken receiveToken tokenRequest :=
  intros H now st r fields tok e Hstale Hnet Hok Hparse Htok Hne Hexp now';
  assert (Hfirst :
    getToken H now st
    = (Return (JStr tok),
       {| tokenCache := {| token := JStr tok; expiresAt := Int (now + e * 1000) |};
          sent := (sent st ++ [tokenRequest H])%list |}));
  [ first_refresh getToken receiveToken tokenRequest tt;
    rewrite Htok, Hexp; reflexivity
  | rewrite Hfirst; cbn [snd]; split; intros Hwin;
    unfold getToken; run; cbn [tokenCache token expiresAt sent Number_gt];
    rewrite (truthy_JStr tok Hne); cbn [andb];
    [ replace (now' + 60000 <? now + e * 1000) with true
        by (symmetry; apply Z.ltb_lt; lia);
      reflexivity
    | replace (now' + 60000 <? now + e * 1000) with false
        by (symmetry; apply Z.ltb_ge; lia);
      settle_any receiveToken ] ].

(** X13.  The reuse window, for [getGraphToken] and the [getAccessToken]
    copies of fabric-api and the workspace manager: after a refresh at [now]
    that stored a token with lifetime [expires_in] seconds, a call at [now']
    returns the cached
    token without sending anything exactly while
    [now' + 60000 < now + expires_in * 1000]; at any later [now'] it sends
    one new exchange. *)
Theorem token_reuse_window :
  reuse_window EmailManager.getGraphToken EmailManager.tokenRequest /\
  reuse_window FabricApi.getAccessToken FabricApi.tokenRequest /\
  reuse_window WorkspaceManager.getAccessToken WorkspaceManager.tokenRequest.
Proof.
  split; [| split].
  - window_proof EmailManager.getGraphToken EmailManager.receiveToken
      EmailManager.tokenRequest.
  - window_proof FabricApi.getAccessToken FabricApi.receiveToken
      FabricApi.tokenRequest.
  - window_proof WorkspaceManager.getAccessToken WorkspaceManager.receiveToken
      WorkspaceManager.tokenRequest.
Qed.

Lemma token_reuse_window_witness :
  stale (tokenCache Doubles.empty) 0 /\
  EmailManager.getGraphToken Doubles.hourly 3539999
    (snd (EmailManager.getGraphToken Doubles.hourly 0 Doubles.empty))
  = (Return (JStr "T1"),
     snd (EmailManager.getGraphToken Doubles.hourly 0 Doubles.empty)) /\
  sent (snd (EmailManager.getGraphToken Doubles.hourly 3540000
               (snd (EmailManager.getGraphToken Doubles.hourly 0 Doubles.empty))))
  = (sent (snd (EmailManager.getGraphToken Doubles.hourly 0 Doubles.empty))
     ++ [EmailManager.tokenRequest Doubles.hourly])%list.
Proof.
  assert (Hs : stale (tokenCache Doubles.empty) 0) by (left; reflexivity).
  assert (Hne : "T1" <> "") by discriminate.
  pose proof (proj1 token_reuse_window Doubles.hourly 0 Doubles.empty
                (Doubles.respond 200 "OK" "T1 for 3600 s")
                [("access_token", JStr "T1"); ("expires_in", JNum (Int 3600))]
                "T1" 3600 Hs eq_refl eq_refl eq_refl eq_refl Hne eq_refl)
    as Hwin.
  split; [exact Hs |]. split.
  - apply (proj1 (Hwin 3539999)). lia.
  - apply (proj2 (Hwin 3540000)). lia.
Defined.

(** ** Listings on unusual answers *)

(** X14.  [read_inbox] on a 2xx answer: with an empty body the result of
    [graphRequest] is [null] and reading its [value] throws a [TypeError];
    with a JSON object whose [value] is missing or falsy the listing is the
    serialised empty array. *)
Theorem read_inbox_on_unusual_answers (H : Host) (now : Z)
    (count unread_only tok : JSValue) (st st1 : State) (r : Response) :
  EmailManager.getGraphToken H now st = (Return tok, st1) ->
  network H (sent st1)
    (EmailManager.options H tok "GET"
       (EmailManager.read_inbox_path H count unread_only) JUndefined)
    = Responded r ->
  ok r = true ->
  (text r = "" ->
   fst (EmailManager.read_inbox H now count unread_only st) = Throw TypeError) /\
  (forall fields,
     text r <> "" ->
     JSON_parse H (text r) = Some (JObj fields) ->
     truthy (lookup fields "value") = false ->
     fst (EmailManager.read_inbox H now count unread_only st)
     = Return (JSON_stringify H (JArr []) 2)).
Proof.
  intros Htok Hnet Hok.
  unfold EmailManager.read_inbox, EmailManager.graphRequest. run.
  rewrite Htok; cbv beta iota zeta. rewrite Hnet; cbv beta iota zeta.
  rewrite Hok; cbn [negb]. split.
  - intros ->. reflexivity.
  - intros fields Hne Hparse Hvalue.
    destruct (String.eqb_spec (text r) ""); [contradiction |].
    cbn [negb]. rewrite Hparse. cbn [prop]. unfold map_array, JS_or.
    rewrite Hvalue. reflexivity.
Qed.

Lemma read_inbox_on_unusual_answers_witness :
  fst (EmailManager.read_inbox Doubles.no_content 0 JUndefined JUndefined
         (Doubles.caching "T1" 3600000)) = Throw TypeError /\
  fst (EmailManager.read_inbox Doubles.no_value 0 JUndefined JUndefined
         (Doubles.caching "T1" 3600000))
  = Return (JSON_stringify Doubles.no_value (JArr []) 2).
Proof.
  split.
  - apply (proj1 (read_inbox_on_unusual_answers Doubles.no_content 0 JUndefined
                    JUndefined (JStr "T1") (Doubles.caching "T1" 3600000)
                    (Doubles.caching "T1" 3600000)
                    (Doubles.respond 204 "No Content" "")
                    eq_refl eq_refl eq_refl)).
    reflexivity.
  - apply (proj2 (read_inbox_on_unusual_answers Doubles.no_value 0 JUndefined
                    JUndefined (JStr "T1") (Doubles.caching "T1" 3600000)
                    (Doubles.caching "T1" 3600000)
                    (Doubles.respond 200 "OK" "message m1")
                    eq_refl eq_refl eq_refl)
             [("id", JStr "m1"); ("subject", JStr "Hi")]).
    + discriminate.
    + reflexivity.
    + reflexivity.
Defined.

(** ** [fabric_api_call] *)

Lemma upper_idempotent (c : ascii) : upper (upper c) = upper c.
Proof. destruct c as [[] [] [] [] [] [] [] []]; reflexivity. Qed.

Lemma toUpperCase_idempotent (s : string) :
  toUpperCase (toUpperCase s) = toUpperCase s.
Proof.
  induction s as [| c s IH]; [reflexivity |].
  cbn [toUpperCase]. rewrite upper_idempotent, IH. reflexivity.
Qed.

(** X15.  The method of [fabric_api_call] is case-insensitive: the call
    behaves with a method exactly as with its upper-case form (same
    requests, same result), so ["post"] sends its body as ["POST"] does. *)
Theorem fabric_api_call_method_case (H : Host) (now : Z) (m : string)
    (path body : JSValue) (st : State) :
  FabricApi.fabric_api_call H now (JStr m) path body st
  = FabricApi.fabric_api_call H now (JStr (toUpperCase m)) path body st.
Proof.
  unfold FabricApi.fabric_api_call, FabricApi.toUpperCase_value.
  rewrite toUpperCase_idempotent. reflexivity.
Qed.

(** X16.  [fabric_api_call] parses every non-empty body, whatever the
    status: when the body is not JSON the call throws a [SyntaxError] and
    the status of the answer is lost. *)
Theorem fabric_api_call_unparseable_body (H : Host) (now : Z) (m : string)
    (path body tok : JSValue) (st st1 : State) (r : Response) :
  FabricApi.getAccessToken H now st = (Return tok, st1) ->
  network H (sent st1) (FabricApi.options H tok (toUpperCase m) path body)
    = Responded r ->
  text r <> "" ->
  JSON_parse H (text r) = None ->
  FabricApi.fabric_api_call H now (JStr m) path body st
  = (Throw SyntaxError,
     after_sending st1 (FabricApi.options H tok (toUpperCase m) path body)).
Proof.
  intros Htok Hnet Hne Hparse.
  unfold FabricApi.fabric_api_call, FabricApi.toUpperCase_value. run.
  rewrite Htok; cbv beta iota zeta. rewrite Hnet; cbv beta iota zeta.
  destruct (String.eqb_spec (text r) ""); [contradiction |].
  cbn [negb]. rewrite Hparse. reflexivity.
Qed.

Lemma fabric_api_call_unparseable_body_witness :
  FabricApi.fabric_api_call Doubles.not_found_text 0 (JStr "get")
    (JStr "/workspaces") JUndefined (Doubles.caching "T1" 3600000)
  = (Throw SyntaxError,
     after_sending (Doubles.caching "T1" 3600000)
       (FabricApi.options Doubles.not_found_text (JStr "T1") (toUpperCase "get")
          (JStr "/workspaces") JUndefined)).
Proof.
  apply (fabric_api_call_unparseable_body Doubles.not_found_text 0 "get"
           (JStr "/workspaces") JUndefined (JStr "T1")
           (Doubles.caching "T1" 3600000) (Doubles.caching "T1" 3600000)
           (Doubles.respond 404 "Not Found" "not found")).
  - reflexivity.
  - reflexivity.
  - discriminate.
  - reflexivity.
Defined.

(** ** powerbi-report-builder and the workspace manager *)

(** X17.  [listSemanticModels] fails fast on a missing workspace: when
    POWERBI_WORKSPACE_ID is unset or empty it throws before the token cache
    is consulted and before anything is sent, whatever the cache and the
    credentials are. *)
Theorem listSemanticModels_requires_workspace (H : Host) (now : Z) (st : State) :
  truthy (env H "POWERBI_WORKSPACE_ID") = false ->
  ReportBuilder.listSemanticModels H now st
  = (Throw (Error "POWERBI_WORKSPACE_ID not configured"), st) /\
  ReportBuilder.list_semantic_models H now st
  = (Throw (Error "POWERBI_WORKSPACE_ID not configured"), st).
Proof.
  intros Hws.
  unfold ReportBuilder.list_semantic_models, ReportBuilder.listSemanticModels.
  run. rewrite Hws. split; reflexivity.
Qed.

Lemma listSemanticModels_requires_workspace_witness :
  ReportBuilder.listSemanticModels Doubles.no_workspace 0 Doubles.empty
  = (Throw (Error "POWERBI_WORKSPACE_ID not configured"), Doubles.empty) /\
  ReportBuilder.list_semantic_models Doubles.no_workspace 0 Doubles.empty
  = (Throw (Error "POWERBI_WORKSPACE_ID not configured"), Doubles.empty).
Proof.
  apply (listSemanticModels_requires_workspace Doubles.no_workspace 0
           Doubles.empty).
  reflexivity.
Defined.

Lemma pure_summary (item : JSValue) : pure (ReportBuilder.summary item).
Proof. unfold ReportBuilder.summary. purity. Qed.

Lemma pure_map_strict (f : JSValue -> M JSValue) (v : JSValue) :
  (forall x, pure (f x)) -> pure (map_strict f v).
Proof.
  intros Hf. unfold map_strict. destruct v; try apply pure_throw.
  apply pure_bind; [apply pure_mapM; exact Hf | intros ys; apply pure_ret].
Qed.

(** X18.  [listReports] and [getSemanticModelSchema] make no such check:
    with POWERBI_WORKSPACE_ID unset they go to the network with the
    workspace named "undefined" in the path. *)
Theorem listings_without_workspace_reach_network (H : Host) (now : Z)
    (semanticModelId : JSValue) (st : State) :
  process_env H "POWERBI_WORKSPACE_ID" = None ->
  ReportBuilder.getSemanticModelSchema H now semanticModelId st
  = ReportBuilder.fabricApiRequest H now "POST"
      ("/workspaces/undefined/semanticModels/" ++ ToString semanticModelId
       ++ "/getDefinition") JNull st /\
  sent (snd (ReportBuilder.listReports H now st))
  = sent (snd (ReportBuilder.fabricApiRequest H now "GET"
                 "/workspaces/undefined/reports" JNull st)).
Proof.
  intros Hws.
  unfold ReportBuilder.getSemanticModelSchema, ReportBuilder.listReports, env.
  rewrite Hws. cbn [ToString]. split; [reflexivity |].
  change ("/workspaces/" ++ "undefined" ++ "/reports")
    with "/workspaces/undefined/reports".
  unfold bind at 1.
  destruct (ReportBuilder.fabricApiRequest H now "GET"
              "/workspaces/undefined/reports" JNull st)
    as [[result | e] st1]; [| reflexivity].
  cbn [snd]. f_equal.
  assert (Hp : pure (value <- get result "value" ;;
                     map_strict ReportBuilder.summary value)).
  { apply pure_bind; [apply pure_get | intros value].
    apply pure_map_strict, pure_summary. }
  apply Hp.
Qed.

Lemma listings_without_workspace_reach_network_witness :
  sent (snd (ReportBuilder.listReports Doubles.no_workspace 0
               (Doubles.caching "T1" 3600000)))
  = sent (snd (ReportBuilder.fabricApiRequest Doubles.no_workspace 0 "GET"
                 "/workspaces/undefined/reports" JNull
                 (Doubles.caching "T1" 3600000))).
Proof.
  apply (proj2 (listings_without_workspace_reach_network Doubles.no_workspace 0
                  JNull (Doubles.caching "T1" 3600000) eq_refl)).
Defined.

(** X19.  The workspace manager's [apiRequest] treats answers as the other
    wrappers do: on a non-2xx answer it throws an [Error] carrying the
    status and the raw text, on a 2xx answer with an empty body it returns
    [null], otherwise the parsed body or a [SyntaxError]. *)
Theorem apiRequest_answers (H : Host) (now : Z) (method path : string)
    (tok : JSValue) (st st1 : State) (r : Response) :
  WorkspaceManager.getAccessToken H now st = (Return tok, st1) ->
  network H (sent st1) (WorkspaceManager.options tok method path) = Responded r ->
  WorkspaceManager.apiRequest H now method path st
  = (if ok r then
       if String.eqb (text r) "" then Return JNull
       else match JSON_parse H (text r) with
            | Some v => Return v
            | None => Throw SyntaxError
            end
     else Throw (Error ("API error: " ++ Number_toString (Int (status r))
                        ++ " - " ++ text r)),
     after_sending st1 (WorkspaceManager.options tok method path)).
Proof.
  intros Htok Hnet. unfold WorkspaceManager.apiRequest. run.
  rewrite Htok; cbv beta iota zeta. rewrite Hnet; cbv beta iota zeta.
  destruct (ok r); cbn [negb]; [| reflexivity].
  destruct (String.eqb (text r) ""); cbn [negb]; [reflexivity |].
  destruct (JSON_parse H (text r)); reflexivity.
Qed.

Lemma apiRequest_answers_witness :
  WorkspaceManager.apiRequest Doubles.not_found_text 0 "GET" "/workspaces/w"
    (Doubles.caching "T1" 3600000)
  = (Throw (Error ("API error: " ++ Number_toString (Int 404) ++ " - "
                   ++ "not found")),
     after_sending (Doubles.caching "T1" 3600000)
       (WorkspaceManager.options (JStr "T1") "GET" "/workspaces/w")).
Proof.
  apply (apiRequest_answers Doubles.not_found_text 0 "GET" "/workspaces/w"
           (JStr "T1") (Doubles.caching "T1" 3600000)
           (Doubles.caching "T1" 3600000)
           (Doubles.respond 404 "Not Found" "not found")).
  - reflexivity.
  - reflexivity.
Defined.

(** X20.  [get_report_pages] does not go through [apiRequest] and differs
    from it twice: its error on a non-2xx answer carries the status only,
    and on a 2xx answer it parses the body unconditionally, so an empty or
    non-JSON body is a [SyntaxError], not [null]. *)
Theorem get_report_pages_answers (H : Host) (now : Z) (report_id tok : JSValue)
    (st st1 : State) (r : Response) :
  WorkspaceManager.getAccessToken H now st = (Return tok, st1) ->
  network H (sent st1) (WorkspaceManager.pagesRequest H tok report_id)
    = Responded r ->
  (ok r = false ->
   WorkspaceManager.get_report_pages H now report_id st
   = (Throw (Error ("API error: " ++ Number_toString (Int (status r)))),
      after_sending st1 (WorkspaceManager.pagesRequest H tok report_id))) /\
  (ok r = true -> JSON_parse H (text r) = None ->
   WorkspaceManager.get_report_pages H now report_id st
   = (Throw SyntaxError,
      after_sending st1 (WorkspaceManager.pagesRequest H tok report_id))).
Proof.
  intros Htok Hnet. unfold WorkspaceManager.get_report_pages. run.
  rewrite Htok; cbv beta iota zeta. rewrite Hnet; cbv beta iota zeta.
  split.
  - intros ->. reflexivity.
  - intros -> ->. reflexivity.
Qed.

Lemma get_report_pages_answers_witness :
  JSON_parse Doubles.no_content "" = None /\
  WorkspaceManager.get_report_pages Doubles.no_content 0 (JStr "r1")
    (Doubles.caching "T1" 3600000)
  = (Throw SyntaxError,
     after_sending (Doubles.caching "T1" 3600000)
       (WorkspaceManager.pagesRequest Doubles.no_content (JStr "T1") (JStr "r1"))) /\
  WorkspaceManager.get_report_pages Doubles.not_found_text 0 (JStr "r1")
    (Doubles.caching "T1" 3600000)
  = (Throw (Error ("API error: " ++ Number_toString (Int 404))),
     after_sending (Doubles.caching "T1" 3600000)
       (WorkspaceManager.pagesRequest Doubles.not_found_text (JStr "T1")
          (JStr "r1"))).
Proof.
  split; [reflexivity |]. split.
  - apply (proj2 (get_report_pages_answers Doubles.no_content 0 (JStr "r1")
                    (JStr "T1") (Doubles.caching "T1" 3600000)
                    (Doubles.caching "T1" 3600000)
                    (Doubles.respond 204 "No Content" "") eq_refl eq_refl));
      reflexivity.
  - apply (proj1 (get_report_pages_answers Doubles.not_found_text 0 (JStr "r1")
                    (JStr "T1") (Doubles.caching "T1" 3600000)
                    (Doubles.caching "T1" 3600000)
                    (Doubles.respond 404 "Not Found" "not found")
                    eq_refl eq_refl)).
    reflexivity.
Defined.

(** X21.  [list_workspace_items] serialises the [value] of the answer when
    it is truthy and the whole answer otherwise, and it fails with a
    [TypeError] when the answer is [null] (a 2xx answer with an empty
    body). *)
Theorem list_workspace_items_result (H : Host) (now : Z) (item_type : JSValue)
    (result : JSValue) (st st1 : State) :
  WorkspaceManager.apiRequest H now "GET"
    (WorkspaceManager.list_workspace_items_path H item_type) st
    = (Return result, st1) ->
  WorkspaceManager.list_workspace_items H now item_type st
  = (match result with
     | JUndefined | JNull => Throw TypeError
     | _ =>
         if truthy (prop result "value") then
           Return (JSON_stringify H (prop result "value") 2)
         else Return (JSON_stringify H result 2)
     end, st1).
Proof.
  intros Hreq. unfold WorkspaceManager.list_workspace_items. run.
  rewrite Hreq; cbv beta iota zeta. unfold JS_or.
  destruct result; try reflexivity;
    match goal with
    | |- context [truthy ?v] => destruct (truthy v); reflexivity
    end.
Qed.

Lemma list_workspace_items_result_witness :
  WorkspaceManager.list_workspace_items Doubles.no_content 0 JUndefined
    (Doubles.caching "T1" 3600000)
  = (Throw TypeError,
     after_sending (Doubles.caching "T1" 3600000)
       (WorkspaceManager.options (JStr "T1") "GET" "/workspaces/undefined/items")).
Proof.
  apply (list_workspace_items_result Doubles.no_content 0 JUndefined JNull
           (Doubles.caching "T1" 3600000)).
  reflexivity.
Defined.

(** ** The news tracker *)

(** X22.  What [cleanContent] returns is a sequence of words separated by
    single spaces, as for [stripHtml]: no whitespace at either end, no
    whitespace character other than the space, no two spaces in a row. *)
Theorem cleanContent_normalized (text : string) :
  normalized (NewsTracker.cleanContent text).
Proof.
  unfold NewsTracker.cleanContent. apply strip_pipeline_normalized.
Qed.

Lemma feed_items_length (links pubDates descriptions rest : list string) (n : Z) :
  forall i count,
    List.length (NewsTracker.feed_items (Int n) links pubDates descriptions
                   i count rest)
    = Nat.min (List.length rest) (Z.to_nat (n - Z.of_nat count)).
Proof.
  induction rest as [| title rest IH]; intros i count; [reflexivity |].
  cbn [NewsTracker.feed_items Number_gt List.length].
  destruct (Z.ltb_spec (Z.of_nat count) n) as [Hlt | Hge].
  - cbn [List.length]. rewrite IH.
    replace (Z.to_nat (n - Z.of_nat count))
      with (S (Z.to_nat (n - Z.of_nat (S count)))) by lia.
    reflexivity.
  - replace (Z.to_nat (n - Z.of_nat count)) with O by lia.
    rewrite Nat.min_0_r. reflexivity.
Qed.

Lemma substring_length (n : nat) (s : string) :
  (String.length (substring 0 n s) <= n)%nat.
Proof.
  revert s. induction n as [| n IH]; intros s.
  - destruct s; cbn; lia.
  - destruct s as [| c s]; cbn [substring String.length]; [lia |].
    specialize (IH s). lia.
Qed.

Lemma feed_items_summaries (maxItems : Number)
    (links pubDates descriptions rest : list string) :
  forall i count,
    Forall (fun item => exists s,
              prop item "summary" = JStr s /\ (String.length s <= 300)%nat)
      (NewsTracker.feed_items maxItems links pubDates descriptions i count rest).
Proof.
  induction rest as [| title rest IH]; intros i count; [constructor |].
  cbn [NewsTracker.feed_items].
  destruct (Number_gt maxItems (Int (Z.of_nat count))); [| constructor].
  constructor; [| apply IH].
  eexists. split; [reflexivity | apply substring_length].
Qed.

(** X23.  On a 2xx answer [fetchRssFeed] returns one item per title after
    the first (the title of the feed itself), but never more than
    [maxItems] of them, none at all when [maxItems] is zero or negative;
    every summary is at most 300 characters long. *)
Theorem fetchRssFeed_item_count (H : Host) (url : string) (n : Z)
    (st : State) (r : Response) :
  network H (sent st) (NewsTracker.pageRequest url) = Responded r ->
  ok r = true ->
  exists items,
    NewsTracker.fetchRssFeed H url (Int n) st
      = (Return items, after_sending st (NewsTracker.pageRequest url)) /\
    List.length items
      = Nat.min (List.length (NewsTracker.extractTag (text r) "title") - 1)
          (Z.to_nat n) /\
    Forall (fun item => exists s,
              prop item "summary" = JStr s /\ (String.length s <= 300)%nat)
      items.
Proof.
  intros Hnet Hok. unfold NewsTracker.fetchRssFeed. run.
  rewrite Hnet; cbv beta iota zeta. rewrite Hok; cbn [negb].
  eexists. split; [reflexivity |]. split.
  - rewrite feed_items_length.
    replace (n - Z.of_nat 0) with n by lia.
    destruct (NewsTracker.extractTag (text r) "title") as [| t ts];
      cbn [tl List.length]; f_equal; lia.
  - apply feed_items_summaries.
Qed.

Lemma fetchRssFeed_item_count_witness :
  NewsTracker.extractTag
    (text (Doubles.respond 200 "OK"
       "<title>Blog</title><link>l0</link><description>d0</description><item><title>A</title><link>l1</link><pubDate>Mon</pubDate><description>one</description></item><item><title>B</title><link>l2</link><pubDate>Tue</pubDate><description>two</description></item><item><title>C</title><link>l3</link><pubDate>Wed</pubDate><description>three</description></item>"))
    "title"
  = ["Blog"; "A"; "B"; "C"] /\
  fst (NewsTracker.fetchRssFeed Doubles.feed "https://blog/feed" (Int 2)
         Doubles.empty)
  = Return
      [JObj [("title", JStr "A"); ("link", JStr "l1"); ("date", JStr "Mon");
             ("summary", JStr "one")];
       JObj [("title", JStr "B"); ("link", JStr "l2"); ("date", JStr "Tue");
             ("summary", JStr "two")]] /\
  exists items,
    NewsTracker.fetchRssFeed Doubles.feed "https://blog/feed" (Int 2) Doubles.empty
      = (Return items,
         after_sending Doubles.empty (NewsTracker.pageRequest "https://blog/feed")) /\
    List.length items
      = Nat.min
          (List.length
             (NewsTracker.extractTag
                (text (Doubles.respond 200 "OK"
       "<title>Blog</title><link>l0</link><description>d0</description><item><title>A</title><link>l1</link><pubDate>Mon</pubDate><description>one</description></item><item><title>B</title><link>l2</link><pubDate>Tue</pubDate><description>two</description></item><item><title>C</title><link>l3</link><pubDate>Wed</pubDate><description>three</description></item>"))
                "title") - 1)
          (Z.to_nat 2) /\
    Forall (fun item => exists s,
              prop item "summary" = JStr s /\ (String.length s <= 300)%nat)
      items.
Proof.
  split; [vm_compute; reflexivity |]. split; [vm_compute; reflexivity |].
  apply (fetchRssFeed_item_count Doubles.feed "https://blog/feed" 2 Doubles.empty).
  - reflexivity.
  - reflexivity.
Defined.

(** X24.  [searchMsLearn] does not fail on an HTTP error: on a non-2xx
    answer it returns no results together with the link to the search
    page. *)
Theorem searchMsLearn_http_error (H : Host) (query : string) (st : State)
    (r : Response) :
  network H (sent st) (NewsTracker.searchRequest H query) = Responded r ->
  ok r = false ->
  NewsTracker.searchMsLearn H query st
  = (Return (JArr [], NewsTracker.searchUrl H query),
     after_sending st (NewsTracker.searchRequest H query)).
Proof.
  intros Hnet Hok. unfold NewsTracker.searchMsLearn. run.
  rewrite Hnet; cbv beta iota zeta. rewrite Hok. reflexivity.
Qed.

Lemma searchMsLearn_http_error_witness :
  NewsTracker.searchMsLearn Doubles.not_found_text "DAX CALCULATE" Doubles.empty
  = (Return (JArr [], NewsTracker.searchUrl Doubles.not_found_text "DAX CALCULATE"),
     after_sending Doubles.empty
       (NewsTracker.searchRequest Doubles.not_found_text "DAX CALCULATE")).
Proof.
  apply (searchMsLearn_http_error Doubles.not_found_text "DAX CALCULATE"
           Doubles.empty (Doubles.respond 404 "Not Found" "not found")).
  - reflexivity.
  - reflexivity.
Defined.




(** ** [formatMessage] *)

Lemma bind_inv {A B : Type} (m : M A) (k : A -> M B) (b : B) (st st' : State) :
  bind m k st = (Return b, st') ->
  exists a st1, m st = (Return a, st1) /\ k a st1 = (Return b, st').
Proof.
  unfold bind. destruct (m st) as [[a | e] st1]; [| discriminate].
  intros Hk. exists a, st1. split; [reflexivity | exact Hk].
Qed.

Lemma get_inv (v x : JSValue) (name : string) (st st' : State) :
  get v name st = (Return x, st') -> x = prop v name /\ st' = st.
Proof.
  destruct v; cbn; intros Heq; try discriminate Heq;
    injection Heq as <- <-; split; reflexivity.
Qed.

Lemma get_opt_inv (v x : JSValue) (name : string) (st st' : State) :
  get_opt v name st = (Return x, st') -> st' = st.
Proof.
  destruct v; cbn; intros Heq; injection Heq as _ <-; reflexivity.
Qed.

Lemma preview_inv (msg bodyPreview preview : JSValue) (st st' : State) :
  (if truthy bodyPreview then ret bodyPreview
   else
     b <- get msg "body" ;;
     content <- get_opt b "content" ;;
     stripped <- EmailManager.stripHtml_value (JS_or content (JStr "")) ;;
     ret (JStr (substring 0 200 stripped))) st = (Return preview, st') ->
  st' = st /\
  if truthy bodyPreview then preview = bodyPreview
  else exists s, preview = JStr s /\ (String.length s <= 200)%nat.
Proof.
  destruct (truthy bodyPreview).
  - cbn. intros Heq. injection Heq as <- <-. split; reflexivity.
  - intros Hb. apply bind_inv in Hb. destruct Hb as [b [s1 [Hget Hb]]].
    apply get_inv in Hget. destruct Hget as [_ ->].
    apply bind_inv in Hb. destruct Hb as [content [s2 [Hopt Hb]]].
    apply get_opt_inv in Hopt. subst s2.
    apply bind_inv in Hb. destruct Hb as [stripped [s3 [Hstrip Hb]]].
    assert (s3 = st) as ->.
    { destruct (JS_or content (JStr "")); cbn in Hstrip;
        try discriminate Hstrip; injection Hstrip as _ <-; reflexivity. }
    cbn in Hb. injection Hb as <- <-.
    split; [reflexivity |]. eexists. split; [reflexivity |].
    apply substring_length.
Qed.

(** X26.  An item that [formatMessage] returns always names a sender: its
    [from] is the address of the message or ["unknown"], never a falsy
    value; its [preview] is the [bodyPreview] of the message when that is
    truthy and otherwise at most 200 characters of the stripped body. *)
Theorem formatMessage_item (msg item : JSValue) (st st' : State) :
  EmailManager.formatMessage msg st = (Return item, st') ->
  truthy (prop item "from") = true /\
  if truthy (prop msg "bodyPreview") then
    prop item "preview" = prop msg "bodyPreview"
  else
    exists s, prop item "preview" = JStr s /\ (String.length s <= 200)%nat.
Proof.
  unfold EmailManager.formatMessage. intros Hf.
  apply bind_inv in Hf. destruct Hf as [bodyPreview [s1 [Hbp Hf]]].
  apply get_inv in Hbp. destruct Hbp as [-> ->].
  apply bind_inv in Hf. destruct Hf as [preview [s2 [Hprev Hf]]].
  apply preview_inv in Hprev. destruct Hprev as [-> Hprev].
  repeat (apply bind_inv in Hf;
          let x := fresh "x" in
          let s := fresh "s" in
          let Hx := fresh "Hx" in
          destruct Hf as [x [s [Hx Hf]]]).
  cbn in Hf. injection Hf as <- _.
  cbn [prop lookup String.eqb Ascii.eqb Bool.eqb]. split; [| exact Hprev].
  unfold JS_or. destruct (truthy x3) eqn:Ht; [exact Ht | reflexivity].
Qed.

Lemma formatMessage_item_witness :
  EmailManager.formatMessage
    (JObj [("id", JStr "m1");
           ("body", JObj [("content", JStr "<p>Hello <b>World</b></p>")])])
    Doubles.empty
  = (Return (JObj [("id", JStr "m1"); ("subject", JUndefined);
                   ("from", JStr "unknown"); ("date", JUndefined);
                   ("isRead", JUndefined); ("preview", JStr "Hello World");
                   ("hasAttachments", JUndefined)]),
     Doubles.empty) /\
  truthy (prop (JObj [("id", JStr "m1"); ("subject", JUndefined);
                      ("from", JStr "unknown"); ("date", JUndefined);
                      ("isRead", JUndefined); ("preview", JStr "Hello World");
                      ("hasAttachments", JUndefined)]) "from") = true.
Proof.
  split; [reflexivity |].
  apply (formatMessage_item
           (JObj [("id", JStr "m1");
                  ("body", JObj [("content", JStr "<p>Hello <b>World</b></p>")])])
           _ Doubles.empty Doubles.empty).
  reflexivity.
Defined.

(** ** Overlapping refreshes *)

(** X27.  Last write wins: when the answer to an exchange is 2xx and its
    body parses to a value other than [null], the cache after the rest of
    the call is the pair issued by that answer, whatever the cache held
    when the answer arrived; of two overlapping refreshes the one answered
    last determines the cache, also when it began first. *)
Theorem last_delivery_wins :
  (forall H now r st data,
     ok r = true -> JSON_parse H (text r) = Some data ->
     (data <> JNull /\ data <> JUndefined) ->
     tokenCache (snd (EmailManager.receiveToken H now r st))
     = issuedCache H now data) /\
  (forall H now r st data,
     ok r = true -> JSON_parse H (text r) = Some data ->
     (data <> JNull /\ data <> JUndefined) ->
     tokenCache (snd (FabricApi.receiveToken H now r st))
     = issuedCache H now data) /\
  (forall H now r st data,
     ok r = true -> JSON_parse H (text r) = Some data ->
     (data <> JNull /\ data <> JUndefined) ->
     tokenCache (snd (WorkspaceManager.receiveToken H now r st))
     = issuedCache H now data).
Proof.
  split; [| split].
  - intros H now r st data Hok Hparse [Hn Hu].
    unfold EmailManager.receiveToken. run. rewrite Hok; cbn [negb].
    rewrite Hparse. destruct data; try reflexivity; contradiction.
  - intros H now r st data Hok Hparse [Hn Hu].
    unfold FabricApi.receiveToken. run. rewrite Hok; cbn [negb].
    rewrite Hparse. destruct data; try reflexivity; contradiction.
  - intros H now r st data Hok Hparse [Hn Hu].
    unfold WorkspaceManager.receiveToken. run. rewrite Hok; cbn [negb].
    rewrite Hparse. destruct data; try reflexivity; contradiction.
Qed.

Lemma last_delivery_wins_witness :
  tokenCache
    (snd (EmailManager.receiveToken Doubles.hourly 0
            (Doubles.respond 200 "OK" "T1 for 3600 s")
            (snd (EmailManager.receiveToken Doubles.hourly 1000
                    (Doubles.respond 200 "OK" "T1 for 60 s") Doubles.empty))))
  = issuedCache Doubles.hourly 0 (Doubles.tokenBody "T1" 3600).
Proof.
  apply (proj1 last_delivery_wins Doubles.hourly 0
           (Doubles.respond 200 "OK" "T1 for 3600 s")).
  - reflexivity.
  - reflexivity.
  - split; discriminate.
Defined.
